(** * ConnectionManager of the JFrog VS-Code extension

    A shallow embedding of [src/main/connect/connectionManager.ts]: the
    in-memory credentials, the durable key-value state of the extension
    context, the OS key store behind [keytar], the input boxes, and the
    client configurations built for the Xray and GoCenter services.

    Asynchronous methods run one after the other (every [await] is a
    sequence point of a single flow), so a method is a function from the
    world before the call to its result, the world after the call and the
    events it emitted, in order.  JavaScript strings are represented by
    their UTF-8 bytes. *)

From Stdlib Require Import ZArith List String Ascii.
From stdpp Require Import gmap strings list.

Local Open Scope Z_scope.

(** ** SHA-256 (FIPS 180-4), as used through
    [crypto.createHash('sha256').update(s).digest('hex')] *)
Module SHA256.

Definition w32 (x : Z) : Z := Z.land x (Z.ones 32).
Definition add32 (x y : Z) : Z := w32 (x + y).
Definition rotr (n x : Z) : Z :=
  Z.lor (Z.shiftr x n) (w32 (Z.shiftl x (32 - n))).
Definition shr (n x : Z) : Z := Z.shiftr x n.
Definition not32 (x : Z) : Z := Z.lxor x (Z.ones 32).

Definition Ch (x y z : Z) : Z := Z.lxor (Z.land x y) (Z.land (not32 x) z).
Definition Maj (x y z : Z) : Z :=
  Z.lxor (Z.lxor (Z.land x y) (Z.land x z)) (Z.land y z).
Definition Sigma0 (x : Z) : Z :=
  Z.lxor (Z.lxor (rotr 2 x) (rotr 13 x)) (rotr 22 x).
Definition Sigma1 (x : Z) : Z :=
  Z.lxor (Z.lxor (rotr 6 x) (rotr 11 x)) (rotr 25 x).
Definition sigma0 (x : Z) : Z :=
  Z.lxor (Z.lxor (rotr 7 x) (rotr 18 x)) (shr 3 x).
Definition sigma1 (x : Z) : Z :=
  Z.lxor (Z.lxor (rotr 17 x) (rotr 19 x)) (shr 10 x).

(** The constants are the leading 32 fractional bits of the cube roots
    (round constants) and square roots (initial hash value) of the
    first primes; they are computed here rather than tabulated. *)
Definition is_prime (n : Z) : bool :=
  forallb (fun d => negb (n mod d =? 0))
          (map Z.of_nat (seq 2 (Z.to_nat n - 2))).
Definition primes_below (n : nat) : list Z :=
  List.filter is_prime (map Z.of_nat (seq 2 (n - 2))).

Fixpoint cbrt_bits (bits : nat) (n r : Z) : Z :=
  match bits with
  | O => r
  | S b =>
      let c := r + Z.shiftl 1 (Z.of_nat b) in
      cbrt_bits b n (if c * c * c <=? n then c else r)
  end.
Definition cbrt (n : Z) : Z := cbrt_bits 48 n 0.

Definition K : list Z :=
  Eval vm_compute in
    map (fun p => w32 (cbrt (p * 2 ^ 96))) (primes_below 312).
Definition H0 : list Z :=
  Eval vm_compute in
    map (fun p => w32 (Z.sqrt (p * 2 ^ 64))) (primes_below 20).

(** Padding: a 1 bit, zeros up to 56 mod 64 bytes, the bit length on
    eight bytes, most significant first. *)
Definition pad (msg : list Z) : list Z :=
  let len := Z.of_nat (length msg) in
  let zeros := Z.to_nat ((55 - len) mod 64) in
  msg ++ [128] ++ repeat 0 zeros
      ++ map (fun i => Z.land (Z.shiftr (8 * len) (8 * (7 - Z.of_nat i))) 255)
             (seq 0 8).

Fixpoint words_of_bytes (bs : list Z) : list Z :=
  match bs with
  | b0 :: b1 :: b2 :: b3 :: rest =>
      (Z.shiftl b0 24 + Z.shiftl b1 16 + Z.shiftl b2 8 + b3)
        :: words_of_bytes rest
  | _ => []
  end.

(** Message schedule, kept with the most recent word first. *)
Fixpoint schedule (n : nat) (rev_w : list Z) : list Z :=
  match n with
  | O => rev_w
  | S n' =>
      let w := add32 (add32 (sigma1 (nth 1 rev_w 0)) (nth 6 rev_w 0))
                     (add32 (sigma0 (nth 14 rev_w 0)) (nth 15 rev_w 0)) in
      schedule n' (w :: rev_w)
  end.

Definition round (s : list Z) (kw : Z * Z) : list Z :=
  match s with
  | [a; b; c; d; e; f; g; h] =>
      let t1 := add32 (add32 (add32 h (Sigma1 e)) (add32 (Ch e f g) (fst kw)))
                      (snd kw) in
      let t2 := add32 (Sigma0 a) (Maj a b c) in
      [add32 t1 t2; a; b; c; add32 d t1; e; f; g]
  | _ => s
  end.

Definition compress (h : list Z) (block : list Z) : list Z :=
  let w := rev (schedule 48 (rev block)) in
  let s := fold_left round (combine K w) h in
  map (fun p => add32 (fst p) (snd p)) (combine h s).

Fixpoint blocks (n : nat) (ws : list Z) : list (list Z) :=
  match n with
  | O => []
  | S n' =>
      match ws with
      | [] => []
      | _ => firstn 16 ws :: blocks n' (skipn 16 ws)
      end
  end.

Definition digest (msg : list Z) : list Z :=
  let ws := words_of_bytes (pad msg) in
  fold_left compress (blocks (length ws) ws) H0.

Definition hex_digit (d : Z) : ascii :=
  ascii_of_nat (Z.to_nat (if d <? 10 then 48 + d else 87 + d)).
Fixpoint hex_nibbles (n : nat) (x : Z) : string :=
  match n with
  | O => EmptyString
  | S n' =>
      String (hex_digit (Z.land (Z.shiftr x (4 * Z.of_nat n')) 15))
             (hex_nibbles n' x)
  end.
Definition hex (ws : list Z) : string :=
  fold_right (fun w acc => String.app (hex_nibbles 8 w) acc) EmptyString ws.

Definition bytes_of_string (s : string) : list Z :=
  map (fun c => Z.of_nat (nat_of_ascii c)) (list_ascii_of_string s).

Definition hexdigest (s : string) : string := hex (digest (bytes_of_string s)).

End SHA256.

(** ** JavaScript values used by the class *)

(** A string is falsy exactly when it is empty. *)
Definition truthy (s : string) : bool := negb (String.eqb s "").

(** [x || ''] for [x : string | undefined | null]. *)
Definition or_empty (x : option string) : string := default "" x.

(** [if (x)] for [x : string | undefined]. *)
Definition defined_truthy (x : option string) : bool :=
  match x with
  | Some s => truthy s
  | None => false
  end.

Inductive number := Num (n : Z) | NaN.

Definition digit_value (c : ascii) : option Z :=
  let n := Z.of_nat (nat_of_ascii c) in
  if (48 <=? n) && (n <=? 57) then Some (n - 48) else None.

Fixpoint decimal (acc : Z) (s : string) : number :=
  match s with
  | EmptyString => Num acc
  | String c rest =>
      match digit_value c with
      | Some d => decimal (10 * acc + d) rest
      | None => NaN
      end
  end.

(** Unary [+] on a string of decimal digits (the only strings a URL's
    [port] can hold); the empty string converts to 0. *)
Definition to_number (s : string) : number := decimal 0 s.

Inductive error :=
| TypeError_undefined (property : string)
| ERR_INVALID_URL (input : string)
| Rejected (reason : string).

Inductive outcome (A : Type) :=
| Ok (a : A)
| Throw (e : error).
Arguments Ok {A} a.
Arguments Throw {A} e.

(** ** Records of the libraries the class talks to *)

(** The fields of a WHATWG [URL] the class reads. *)
Module URL.
Record t := make { protocol : string; host : string; port : string }.
End URL.

Module IProxyConfig.
Record t := make {
  protocol : option string;
  host : option string;
  port : option number
}.
(** [{} as IProxyConfig] *)
Definition empty : t := make None None None.
End IProxyConfig.

(** [IProxyConfig | boolean] *)
Inductive proxy :=
| ProxyBoolean (b : bool)
| ProxyObject (c : IProxyConfig.t).

(** Truthiness of an optional [proxy] field: objects are truthy, also
    the empty one. *)
Definition proxy_truthy (p : option proxy) : bool :=
  match p with
  | Some (ProxyObject _) => true
  | Some (ProxyBoolean b) => b
  | None => false
  end.

Module IClientConfig.
Record t := make {
  serverUrl : option string;
  username : option string;
  password : option string;
  headers : option (gmap string string);
  proxy : option proxy
}.
Definition set_headers (h : gmap string string) (c : t) : t :=
  make (serverUrl c) (username c) (password c) (Some h) (proxy c).
End IClientConfig.

(** [clientConfig.headers[name]] *)
Definition header (name : string) (clientConfig : IClientConfig.t) : option string :=
  match IClientConfig.headers clientConfig with
  | Some h => h !! name
  | None => None
  end.

Inductive validator := validateUrl | validateFieldNotEmpty.

Module InputBoxOptions.
Record t := make {
  prompt : string;
  value : option string;
  password : bool;
  ignoreFocusOut : bool;
  validateInput : validator
}.
End InputBoxOptions.

Record XrayClient := { xray_config : IClientConfig.t }.
Record GoCenterClient := { gocenter_config : IClientConfig.t }.

Record ExtensionContext := { globalState : gmap string string }.

(** The fields of the class. *)
Record ConnectionManager := {
  _context : option ExtensionContext;
  _username : string;
  _password : string;
  _url : string
}.

Definition new_ConnectionManager : ConnectionManager :=
  {| _context := None; _username := ""; _password := ""; _url := "" |}.

(** [this._context = context] *)
Definition set_context (context : ExtensionContext) (cm : ConnectionManager)
  : ConnectionManager :=
  {| _context := Some context;
     _username := _username cm;
     _password := _password cm;
     _url := _url cm |}.

(** [this._url = url; this._username = username; this._password = password] *)
Definition set_credentials (url username password : string) (cm : ConnectionManager)
  : ConnectionManager :=
  {| _context := _context cm;
     _username := username;
     _password := password;
     _url := url |}.

(** The object together with the OS key store ([keytar]), indexed by
    service and account. *)
Record World := {
  this : ConnectionManager;
  keychain : gmap (string * string) string
}.

Definition XRAY_USERNAME_KEY : string := "jfrog.xray.username".
Definition XRAY_URL_KEY : string := "jfrog.xray.url".
Definition SERVICE_ID : string := "com.jfrog.xray.vscode".

(** ** The class, over the payload types of the two services *)
Section Model.

(** Types of [xray-client-js] and of the GoCenter client model that
    the class only passes along. *)
Context {ComponentDetails IArtifact IComponentMetadata : Type}.

Record ISummaryRequestModel := { component_details : list ComponentDetails }.
Record ISummaryResponse := { artifacts : list IArtifact }.
Record IModuleResponse := { components_metadata : list IComponentMetadata }.

(** What the host, the user and the network answer during one call. *)
Record Env := {
  (** [require('../../../package.json').version] *)
  package_version : string;
  (** [vscode.workspace.getConfiguration()] *)
  configuration : gmap string string;
  (** [new URL(input)]; [None] when the constructor throws *)
  new_URL : string -> option URL.t;
  (** [vscode.window.showInputBox]; [None] is [undefined] *)
  showInputBox : InputBoxOptions.t -> option string;
  (** [ConnectionUtils.checkConnection] *)
  checkConnection : XrayClient -> outcome bool;
  (** [xrayClient.summary().component] *)
  summary_component : XrayClient -> ISummaryRequestModel -> outcome ISummaryResponse;
  (** [goCenterClient.getMetadataForModules] *)
  getMetadataForModules : GoCenterClient -> ISummaryRequestModel -> outcome IModuleResponse
}.

Inductive event :=
| GlobalStateGet (key : string)
| GlobalStateUpdate (key value : string)
| KeytarGetPassword (service account : string)
| KeytarSetPassword (service account password : string)
| ShowInputBox (options : InputBoxOptions.t)
| WithProgress (title : string)
| CheckConnection (client : XrayClient)
| SummaryComponent (client : XrayClient) (request : ISummaryRequestModel)
| GetMetadataForModules (client : GoCenterClient) (request : ISummaryRequestModel).

Definition is_prompt (e : event) : bool :=
  match e with
  | ShowInputBox _ => true
  | _ => false
  end.

Definition is_write (e : event) : bool :=
  match e with
  | GlobalStateUpdate _ _ | KeytarSetPassword _ _ _ => true
  | _ => false
  end.

Definition is_vault_lookup (e : event) : bool :=
  match e with
  | KeytarGetPassword _ _ => true
  | _ => false
  end.

(** *** Calls: result, world afterwards, events emitted *)
Record run (A : Type) := Run {
  result : outcome A;
  final : World;
  trace : list event
}.
Arguments Run {A} result final trace.
Arguments result {A} r.
Arguments final {A} r.
Arguments trace {A} r.

Definition M (A : Type) : Type := World -> run A.

Definition ret {A} (a : A) : M A := fun w => Run (Ok a) w [].

(** Sequencing: a thrown error skips the rest, and keeps the world
    and the events reached so far. *)
Definition bind {A B} (m : M A) (k : A -> M B) : M B := fun w =>
  let r1 := m w in
  match result r1 with
  | Ok a =>
      let r2 := k a (final r1) in
      Run (result r2) (final r2) (trace r1 ++ trace r2)
  | Throw e => Run (Throw e) (final r1) (trace r1)
  end.

Notation "x <- m ;; k" := (bind m (fun x => k))
  (at level 100, m at next level, right associativity).
Notation "m ;;; k" := (bind m (fun _ => k))
  (at level 100, right associativity).

Definition emit (e : event) : M unit := fun w => Run (Ok tt) w [e].

Definition get_this : M ConnectionManager := fun w => Run (Ok (this w)) w [].

Definition put_this (cm : ConnectionManager) : M unit := fun w =>
  Run (Ok tt) {| this := cm; keychain := keychain w |} [].

Definition lift {A} (o : outcome A) : M A := fun w => Run o w [].

(** *** The stores *)

(** [this._context.globalState.get(key)] *)
Definition globalState_get (key : string) : M (option string) :=
  cm <- get_this ;;
  match _context cm with
  | None => lift (Throw (TypeError_undefined "globalState"))
  | Some context =>
      emit (GlobalStateGet key) ;;;
      ret (globalState context !! key)
  end.

(** [this._context.globalState.update(key, value)] *)
Definition globalState_update (key value : string) : M unit :=
  cm <- get_this ;;
  match _context cm with
  | None => lift (Throw (TypeError_undefined "globalState"))
  | Some context =>
      emit (GlobalStateUpdate key value) ;;;
      put_this (set_context {| globalState := <[key := value]> (globalState context) |} cm)
  end.

(** [keytar.getPassword(service, account)]; [None] is [null] *)
Definition keytar_getPassword (service account : string) : M (option string) :=
  fun w => Run (Ok (keychain w !! (service, account))) w
               [KeytarGetPassword service account].

(** [keytar.setPassword(service, account, password)] *)
Definition keytar_setPassword (service account password : string) : M unit :=
  fun w => Run (Ok tt)
               {| this := this w;
                  keychain := <[(service, account) := password]> (keychain w) |}
               [KeytarSetPassword service account password].

Variable env : Env.

Definition window_showInputBox (options : InputBoxOptions.t) : M (option string) :=
  fun w => Run (Ok (showInputBox env options)) w [ShowInputBox options].

(** [vscode.window.withProgress(options, task)] runs the task. *)
Definition window_withProgress {A} (title : string) (task : M A) : M A :=
  emit (WithProgress title) ;;; task.

Definition USER_AGENT : string := "jfrog-vscode-extension/" +:+ package_version env.

(** *** Methods *)

Definition createAccountId (url username : string) : string :=
  SHA256.hexdigest (url +:+ username).

Definition areCredentialsSet (cm : ConnectionManager) : bool :=
  truthy (_url cm) && truthy (_username cm) && truthy (_password cm).

Definition getProxyConfig : outcome proxy :=
  let proxySupport := default "override" (configuration env !! "http.proxySupport") in
  if String.eqb proxySupport "off" then Ok (ProxyBoolean false)
  else
    let proxyConfig := IProxyConfig.empty in
    match configuration env !! "http.proxy" with
    | Some httpProxy =>
        if truthy httpProxy then
          match new_URL env httpProxy with
          | None => Throw (ERR_INVALID_URL httpProxy)
          | Some proxyUri =>
              Ok (ProxyObject
                    (IProxyConfig.make
                       (Some (URL.protocol proxyUri))
                       (Some (URL.host proxyUri))
                       (if truthy (URL.port proxyUri)
                        then Some (to_number (URL.port proxyUri))
                        else IProxyConfig.port proxyConfig)))
          end
        else Ok (ProxyObject proxyConfig)
    | None => Ok (ProxyObject proxyConfig)
    end.

(** [clientConfig.headers![name] = value] *)
Definition set_header (name value : string) (clientConfig : IClientConfig.t)
  : outcome IClientConfig.t :=
  match IClientConfig.headers clientConfig with
  | None => Throw (TypeError_undefined name)
  | Some h => Ok (IClientConfig.set_headers (<[name := value]> h) clientConfig)
  end.

Definition addUserAgentHeader (clientConfig : IClientConfig.t) : outcome IClientConfig.t :=
  set_header "User-Agent" USER_AGENT clientConfig.

Definition addProxyAuthHeader (clientConfig : IClientConfig.t) : outcome IClientConfig.t :=
  if proxy_truthy (IClientConfig.proxy clientConfig) then
    match configuration env !! "http.proxyAuthorization" with
    | Some proxyAuthHeader =>
        if truthy proxyAuthHeader
        then set_header "Proxy-Authorization" proxyAuthHeader clientConfig
        else Ok clientConfig
    | None => Ok clientConfig
    end
  else Ok clientConfig.

Definition outcome_bind {A B} (o : outcome A) (k : A -> outcome B) : outcome B :=
  match o with
  | Ok a => k a
  | Throw e => Throw e
  end.

Definition createXrayClient (cm : ConnectionManager) : outcome XrayClient :=
  outcome_bind getProxyConfig (fun p =>
  let clientConfig :=
    IClientConfig.make (Some (_url cm)) (Some (_username cm)) (Some (_password cm))
                       (Some ∅) (Some p) in
  outcome_bind (addUserAgentHeader clientConfig) (fun clientConfig =>
  outcome_bind (addProxyAuthHeader clientConfig) (fun clientConfig =>
  Ok {| xray_config := clientConfig |}))).

Definition createGoCenterClient (cm : ConnectionManager) : outcome GoCenterClient :=
  outcome_bind getProxyConfig (fun p =>
  let clientConfig := IClientConfig.make None None None (Some ∅) (Some p) in
  outcome_bind (addUserAgentHeader clientConfig) (fun clientConfig =>
  outcome_bind (addProxyAuthHeader clientConfig) (fun clientConfig =>
  Ok {| gocenter_config := clientConfig |}))).

(** The three input boxes. *)
Definition url_box (cm : ConnectionManager) : InputBoxOptions.t :=
  InputBoxOptions.make "Enter Xray url"
                       (Some (if truthy (_url cm) then _url cm else "https://"))
                       false true validateUrl.

Definition username_box (cm : ConnectionManager) : InputBoxOptions.t :=
  InputBoxOptions.make "Enter Xray username" (Some (_username cm))
                       false true validateFieldNotEmpty.

Definition password_box : InputBoxOptions.t :=
  InputBoxOptions.make "Enter Xray password" None true true validateFieldNotEmpty.

Definition retrieveUrl (prompt : bool) : M string :=
  stored <- globalState_get XRAY_URL_KEY ;;
  if prompt then
    cm <- get_this ;;
    answer <- window_showInputBox (url_box cm) ;;
    ret (or_empty answer)
  else ret (or_empty stored).

Definition storeUrl : M unit :=
  cm <- get_this ;;
  globalState_update XRAY_URL_KEY (_url cm).

Definition retrieveUsername (prompt : bool) : M string :=
  stored <- globalState_get XRAY_USERNAME_KEY ;;
  if prompt then
    cm <- get_this ;;
    answer <- window_showInputBox (username_box cm) ;;
    ret (or_empty answer)
  else ret (or_empty stored).

Definition storeUsername : M unit :=
  cm <- get_this ;;
  globalState_update XRAY_USERNAME_KEY (_username cm).

Definition retrievePassword (prompt : bool) (url username : string) : M string :=
  stored <- keytar_getPassword SERVICE_ID (createAccountId url username) ;;
  if prompt then
    answer <- window_showInputBox password_box ;;
    ret (or_empty answer)
  else ret (or_empty stored).

Definition storePassword : M unit :=
  cm <- get_this ;;
  keytar_setPassword SERVICE_ID (createAccountId (_url cm) (_username cm)) (_password cm).

Definition populateCredentials (prompt : bool) : M bool :=
  url <- retrieveUrl prompt ;;
  if negb (truthy url) then ret false else
  username <- retrieveUsername prompt ;;
  if negb (truthy username) then ret false else
  password <- retrievePassword prompt url username ;;
  if negb (truthy password) then ret false else
  cm <- get_this ;;
  put_this (set_credentials url username password cm) ;;;
  ret true.

Definition activate (context : ExtensionContext) : M unit :=
  cm <- get_this ;;
  put_this (set_context context cm) ;;;
  _ <- populateCredentials false ;;
  ret tt.

(** The task [connect] runs under the progress indicator. *)
Definition connect_task : M bool :=
  cm <- get_this ;;
  xrayClient <- lift (createXrayClient cm) ;;
  emit (CheckConnection xrayClient) ;;;
  connected <- lift (checkConnection env xrayClient) ;;
  if negb connected then ret false else
  storeUrl ;;;
  storeUsername ;;;
  storePassword ;;;
  ret true.

Definition connect : M bool :=
  populated <- populateCredentials true ;;
  if negb populated then ret false else
  window_withProgress "Checking connection with Xray server..." connect_task.

Definition getComponents (componentDetails : list ComponentDetails) : M (list IArtifact) :=
  cm <- get_this ;;
  (if negb (areCredentialsSet cm)
   then _ <- populateCredentials false ;; ret tt
   else ret tt) ;;;
  cm <- get_this ;;
  xrayClient <- lift (createXrayClient cm) ;;
  let summaryRequest := {| component_details := componentDetails |} in
  emit (SummaryComponent xrayClient summaryRequest) ;;;
  summaryResponse <- lift (summary_component env xrayClient summaryRequest) ;;
  ret (artifacts summaryResponse).

Definition getGoCenterModules (componentDetails : list ComponentDetails)
  : M (list IComponentMetadata) :=
  cm <- get_this ;;
  goCenterClient <- lift (createGoCenterClient cm) ;;
  let summaryRequest := {| component_details := componentDetails |} in
  emit (GetMetadataForModules goCenterClient summaryRequest) ;;;
  moduleResponse <- lift (getMetadataForModules env goCenterClient summaryRequest) ;;
  ret (components_metadata moduleResponse).

End Model.

Arguments Run {ComponentDetails A} result final trace.
Arguments result {ComponentDetails A} r.
Arguments final {ComponentDetails A} r.
Arguments trace {ComponentDetails A} r.

(** ** Worlds the class can be in *)
Section Reachability.

Context {ComponentDetails IArtifact IComponentMetadata : Type}.
Implicit Types env : @Env ComponentDetails IArtifact IComponentMetadata.

(** A world is reachable when it results from calls of the public
    methods on a new object, under any answers of the host, the user
    and the network; the key store may also change between calls. *)
Inductive reachable : World -> Prop :=
| reach_new (k : gmap (string * string) string) :
    reachable {| this := new_ConnectionManager; keychain := k |}
| reach_keychain (w : World) (k : gmap (string * string) string) :
    reachable w -> reachable {| this := this w; keychain := k |}
| reach_activate env (context : ExtensionContext) (w : World) :
    reachable w -> reachable (final (activate env context w))
| reach_connect env (w : World) :
    reachable w -> reachable (final (connect env w))
| reach_getComponents env (componentDetails : list ComponentDetails) (w : World) :
    reachable w -> reachable (final (getComponents env componentDetails w))
| reach_getGoCenterModules env (componentDetails : list ComponentDetails) (w : World) :
    reachable w -> reachable (final (getGoCenterModules env componentDetails w)).

(** The three in-memory fields are all empty or all non-empty. *)
Definition credentials_consistent (cm : ConnectionManager) : Prop :=
  (_url cm = "" /\ _username cm = "" /\ _password cm = "")
  \/ areCredentialsSet cm = true.

End Reachability.

(** ** Sample worlds and answers *)
Module Sample.

(** The user types a url, a username and a password. *)
Definition answers (options : InputBoxOptions.t) : option string :=
  if String.eqb (InputBoxOptions.prompt options) "Enter Xray url"
  then Some "https://x.example"
  else if String.eqb (InputBoxOptions.prompt options) "Enter Xray username"
  then Some "bob"
  else Some "secret".

(** The user dismisses every input box. *)
Definition dismissed (options : InputBoxOptions.t) : option string := None.

(** The URL constructor on the one proxy address used below. *)
Definition parse (input : string) : option URL.t :=
  if String.eqb input "http://proxy.example:8080"
  then Some (URL.make "http:" "proxy.example:8080" "8080")
  else if String.eqb input "http://proxy.example"
  then Some (URL.make "http:" "proxy.example" "")
  else None.

Definition env (settings : gmap string string)
           (box : InputBoxOptions.t -> option string) (connected : bool)
  : @Env string string string :=
  {| package_version := "1.0.0";
     configuration := settings;
     new_URL := parse;
     showInputBox := box;
     checkConnection := fun _ => Ok connected;
     summary_component := fun _ _ => Ok {| artifacts := [] |};
     getMetadataForModules := fun _ _ => Ok {| components_metadata := [] |} |}.

(** The user enters the credentials and the server rejects them. *)
Definition refusing : @Env string string string := env ∅ answers false.

(** The user enters the credentials and the server accepts them. *)
Definition accepting : @Env string string string := env ∅ answers true.

(** Nobody answers the input boxes. *)
Definition silent : @Env string string string := env ∅ dismissed false.

Definition proxy_settings : gmap string string :=
  {[ "http.proxy" := "http://proxy.example:8080";
     "http.proxyAuthorization" := "Basic dXNlcjpwYXNz" ]}.

Definition proxy_off_settings : gmap string string :=
  <["http.proxySupport" := "off"]> proxy_settings.

(** Behind an authenticating proxy, and with the proxy switched off. *)
Definition proxied : @Env string string string := env proxy_settings answers true.
Definition proxy_off : @Env string string string := env proxy_off_settings answers true.

(** A new object, and the context it is activated with. *)
Definition created : World := {| this := new_ConnectionManager; keychain := ∅ |}.
Definition empty_context : ExtensionContext := {| globalState := ∅ |}.

(** An activated object with nothing stored. *)
Definition fresh : World :=
  {| this := set_context empty_context new_ConnectionManager; keychain := ∅ |}.

(** An activated object whose durable state and key store hold an
    earlier account. *)
Definition stored_context : ExtensionContext :=
  {| globalState := {[ XRAY_URL_KEY := "https://old.example";
                       XRAY_USERNAME_KEY := "alice" ]} |}.

Definition stored : World :=
  {| this := set_context stored_context new_ConnectionManager;
     keychain := {[ (SERVICE_ID, createAccountId "https://old.example" "alice") := "hunter2" ]} |}.

(** Only the url is stored. *)
Definition url_only : World :=
  {| this := set_context {| globalState := {[ XRAY_URL_KEY := "https://x.example" ]} |}
                         new_ConnectionManager;
     keychain := ∅ |}.

End Sample.

(** * Properties *)

(** The implementation of SHA-256 agrees with the standard's test
    vectors (one and two blocks). *)
Example sha256_abc :
  SHA256.hexdigest "abc"
  = "ba7816bf8f01cfea414140de5dae2223b00361a396177a9cb410ff61f20015ad".
Proof. vm_compute. reflexivity. Qed.

Example sha256_empty :
  SHA256.hexdigest ""
  = "e3b0c44298fc1c149afbf4c8996fb92427ae41e4649b934ca495991b7852b855".
Proof. vm_compute. reflexivity. Qed.

Example sha256_two_blocks :
  SHA256.hexdigest "abcdbcdecdefdefgefghfghighijhijkijkljklmklmnlmnomnopnopq"
  = "248d6a61d20638b8e5c026930c3e6039a33ce45964ff2167f6ecedd419db06c1".
Proof. vm_compute. reflexivity. Qed.

(** ** Truthiness of strings *)
Lemma truthy_true (s : string) : truthy s = true <-> s <> "".
Proof.
  unfold truthy. rewrite negb_true_iff. apply String.eqb_neq.
Qed.

Lemma truthy_false (s : string) : truthy s = false <-> s = "".
Proof.
  unfold truthy. rewrite negb_false_iff. apply String.eqb_eq.
Qed.

Section Properties.

Context {ComponentDetails IArtifact IComponentMetadata : Type}.
Variable env : @Env ComponentDetails IArtifact IComponentMetadata.

Lemma retrieveUrl_eq (prompt : bool) (w : World) :
  retrieveUrl env prompt w =
  match _context (this w) with
  | None => Run (Throw (TypeError_undefined "globalState")) w []
  | Some context =>
      if prompt
      then Run (Ok (or_empty (showInputBox env (url_box (this w))))) w
               [GlobalStateGet XRAY_URL_KEY; ShowInputBox (url_box (this w))]
      else Run (Ok (or_empty (globalState context !! XRAY_URL_KEY))) w
               [GlobalStateGet XRAY_URL_KEY]
  end.
Proof.
  unfold retrieveUrl, globalState_get, bind, get_this; simpl.
  destruct (_context (this w)); [destruct prompt|]; reflexivity.
Qed.

Lemma retrieveUsername_eq (prompt : bool) (w : World) :
  retrieveUsername env prompt w =
  match _context (this w) with
  | None => Run (Throw (TypeError_undefined "globalState")) w []
  | Some context =>
      if prompt
      then Run (Ok (or_empty (showInputBox env (username_box (this w))))) w
               [GlobalStateGet XRAY_USERNAME_KEY; ShowInputBox (username_box (this w))]
      else Run (Ok (or_empty (globalState context !! XRAY_USERNAME_KEY))) w
               [GlobalStateGet XRAY_USERNAME_KEY]
  end.
Proof.
  unfold retrieveUsername, globalState_get, bind, get_this; simpl.
  destruct (_context (this w)); [destruct prompt|]; reflexivity.
Qed.

Lemma retrievePassword_eq (prompt : bool) (url username : string) (w : World) :
  retrievePassword env prompt url username w =
  if prompt
  then Run (Ok (or_empty (showInputBox env password_box))) w
           [KeytarGetPassword SERVICE_ID (createAccountId url username);
            ShowInputBox password_box]
  else Run (Ok (or_empty (keychain w !! (SERVICE_ID, createAccountId url username)))) w
           [KeytarGetPassword SERVICE_ID (createAccountId url username)].
Proof.
  unfold retrievePassword, keytar_getPassword, bind; simpl.
  destruct prompt; reflexivity.
Qed.

Lemma result_bind {A B} (m : @M ComponentDetails A) (k : A -> @M ComponentDetails B) (w : World) :
  result (bind m k w) =
  match result (m w) with
  | Ok a => result (k a (final (m w)))
  | Throw e => Throw e
  end.
Proof. unfold bind; simpl. destruct (result (m w)); reflexivity. Qed.

Lemma final_bind {A B} (m : @M ComponentDetails A) (k : A -> @M ComponentDetails B) (w : World) :
  final (bind m k w) =
  match result (m w) with
  | Ok a => final (k a (final (m w)))
  | Throw e => final (m w)
  end.
Proof. unfold bind; simpl. destruct (result (m w)); reflexivity. Qed.

Lemma trace_bind {A B} (m : @M ComponentDetails A) (k : A -> @M ComponentDetails B) (w : World) :
  trace (bind m k w) =
  match result (m w) with
  | Ok a => trace (m w) ++ trace (k a (final (m w)))
  | Throw e => trace (m w)
  end.
Proof. unfold bind; simpl. destruct (result (m w)); reflexivity. Qed.

(** Running a sequence step by step. *)
Lemma bind_ok {A B} (m : @M ComponentDetails A) (k : A -> @M ComponentDetails B)
      (w w1 w2 : World) (a : A) (r : outcome B) (t t1 t2 : list event) :
  m w = Run (Ok a) w1 t1 ->
  k a w1 = Run r w2 t2 ->
  t = t1 ++ t2 ->
  bind m k w = Run r w2 t.
Proof. intros Hm Hk ->. unfold bind. rewrite Hm; cbn [result final trace]. rewrite Hk. reflexivity. Qed.

Lemma bind_throw {A B} (m : @M ComponentDetails A) (k : A -> @M ComponentDetails B)
      (w w1 : World) (e : error) (t1 : list event) :
  m w = Run (Throw e) w1 t1 ->
  bind m k w = Run (Throw e) w1 t1.
Proof. intros Hm. unfold bind. rewrite Hm. reflexivity. Qed.

Lemma run_eta {A} (r : @run ComponentDetails A) :
  Run (result r) (final r) (trace r) = r.
Proof. destruct r; reflexivity. Qed.

Lemma populateCredentials_stages (prompt : bool) (w : World) :
  populateCredentials env prompt w =
  match result (retrieveUrl env prompt w) with
  | Throw e => Run (Throw e) w (trace (retrieveUrl env prompt w))
  | Ok url =>
  if negb (truthy url) then Run (Ok false) w (trace (retrieveUrl env prompt w)) else
  match result (retrieveUsername env prompt w) with
  | Throw e => Run (Throw e) w (trace (retrieveUrl env prompt w) ++ trace (retrieveUsername env prompt w))
  | Ok username =>
  if negb (truthy username)
  then Run (Ok false) w
           (trace (retrieveUrl env prompt w) ++ trace (retrieveUsername env prompt w))
  else
    let stages := trace (retrieveUrl env prompt w)
                    ++ trace (retrieveUsername env prompt w)
                    ++ trace (retrievePassword env prompt url username w) in
    match result (retrievePassword env prompt url username w) with
    | Throw e => Run (Throw e) w stages
    | Ok password =>
        if negb (truthy password) then Run (Ok false) w stages
        else Run (Ok true)
                 {| this := set_credentials url username password (this w);
                    keychain := keychain w |}
                 stages
    end
  end
  end.
Proof.
  unfold populateCredentials, bind, ret, get_this, put_this.
  rewrite retrieveUrl_eq, retrieveUsername_eq.
  destruct (_context (this w)) as [context|] eqn:Hc; [|reflexivity].
  destruct prompt; cbn [result final trace negb].
  - destruct (truthy (or_empty (showInputBox env (url_box (this w)))));
      cbn [result final trace negb]; [|reflexivity].
    rewrite retrieveUsername_eq, Hc; cbn [result final trace negb].
    destruct (truthy (or_empty (showInputBox env (username_box (this w)))));
      cbn [result final trace negb]; [|reflexivity].
    rewrite retrievePassword_eq; cbn [result final trace negb].
    destruct (truthy (or_empty (showInputBox env password_box)));
      cbn [result final trace negb]; rewrite ?app_nil_r; reflexivity.
  - destruct (truthy (or_empty (globalState context !! XRAY_URL_KEY)));
      cbn [result final trace negb]; [|reflexivity].
    rewrite retrieveUsername_eq, Hc; cbn [result final trace negb].
    destruct (truthy (or_empty (globalState context !! XRAY_USERNAME_KEY)));
      cbn [result final trace negb]; [|reflexivity].
    rewrite retrievePassword_eq; cbn [result final trace negb].
    destruct (truthy _); cbn [result final trace negb]; rewrite ?app_nil_r; reflexivity.
Qed.

(** *** What a populate call can and cannot do *)

Lemma populateCredentials_trace (P : event -> Prop) (prompt : bool) (w : World) :
  Forall P (trace (retrieveUrl env prompt w)) ->
  Forall P (trace (retrieveUsername env prompt w)) ->
  (forall url username,
      result (retrieveUrl env prompt w) = Ok url ->
      result (retrieveUsername env prompt w) = Ok username ->
      Forall P (trace (retrievePassword env prompt url username w))) ->
  Forall P (trace (populateCredentials env prompt w)).
Proof.
  intros Hurl Huser Hpass. rewrite populateCredentials_stages.
  destruct (result (retrieveUrl env prompt w)) as [url|]; [|assumption].
  destruct (truthy url); cbn [negb]; [|assumption].
  destruct (result (retrieveUsername env prompt w)) as [username|];
    [|apply Forall_app; split; assumption].
  destruct (truthy username); cbn [negb];
    [|apply Forall_app; split; assumption].
  specialize (Hpass url username eq_refl eq_refl).
  assert (Forall P (trace (retrieveUrl env prompt w)
                      ++ trace (retrieveUsername env prompt w)
                      ++ trace (retrievePassword env prompt url username w)))
    by (rewrite !Forall_app; auto).
  cbn zeta.
  destruct (result (retrievePassword env prompt url username w)) as [password|];
    [destruct (truthy password)|]; assumption.
Qed.

Lemma populateCredentials_no_write (prompt : bool) (w : World) :
  Forall (fun e => is_write e = false) (trace (populateCredentials env prompt w)).
Proof.
  apply populateCredentials_trace; intros;
    rewrite ?retrieveUrl_eq, ?retrieveUsername_eq, ?retrievePassword_eq;
    destruct (_context (this w)), prompt; repeat constructor.
Qed.

Lemma populateCredentials_no_prompt (w : World) :
  Forall (fun e => is_prompt e = false) (trace (populateCredentials env false w)).
Proof.
  apply populateCredentials_trace; intros;
    rewrite ?retrieveUrl_eq, ?retrieveUsername_eq, ?retrievePassword_eq;
    destruct (_context (this w)); repeat constructor.
Qed.

(** The world after a populate call: the credentials are assigned when
    it answers [true], and nothing changes otherwise. *)
Lemma populateCredentials_final (prompt : bool) (w : World) :
  match result (populateCredentials env prompt w) with
  | Ok true =>
      exists url username password,
        result (retrieveUrl env prompt w) = Ok url
        /\ result (retrieveUsername env prompt w) = Ok username
        /\ result (retrievePassword env prompt url username w) = Ok password
        /\ url <> "" /\ username <> "" /\ password <> ""
        /\ final (populateCredentials env prompt w)
           = {| this := set_credentials url username password (this w);
                keychain := keychain w |}
  | _ => final (populateCredentials env prompt w) = w
  end.
Proof.
  rewrite populateCredentials_stages.
  destruct (result (retrieveUrl env prompt w)) as [url|]; [|reflexivity].
  destruct (truthy url) eqn:Hurl; cbn [negb]; [|reflexivity].
  destruct (result (retrieveUsername env prompt w)) as [username|]; [|reflexivity].
  destruct (truthy username) eqn:Huser; cbn [negb]; [|reflexivity].
  cbn zeta.
  destruct (result (retrievePassword env prompt url username w)) as [password|] eqn:Hp;
    [|reflexivity].
  destruct (truthy password) eqn:Hpass; cbn [negb result final]; [|reflexivity].
  exists url, username, password.
  rewrite truthy_true in Hurl, Huser, Hpass. auto 10.
Qed.

Lemma populateCredentials_true (prompt : bool) (w : World) :
  result (populateCredentials env prompt w) = Ok true ->
  areCredentialsSet (this (final (populateCredentials env prompt w))) = true
  /\ _context (this (final (populateCredentials env prompt w))) = _context (this w)
  /\ keychain (final (populateCredentials env prompt w)) = keychain w.
Proof.
  intros H. pose proof (populateCredentials_final prompt w) as F.
  rewrite H in F. destruct F as (url & username & password & _ & _ & _ & Hu & Hn & Hp & ->).
  apply truthy_true in Hu, Hn, Hp.
  unfold areCredentialsSet; cbn. rewrite Hu, Hn, Hp. auto.
Qed.

Lemma populateCredentials_not_true (prompt : bool) (w : World) :
  result (populateCredentials env prompt w) <> Ok true ->
  final (populateCredentials env prompt w) = w.
Proof.
  intros H. pose proof (populateCredentials_final prompt w) as F.
  destruct (result (populateCredentials env prompt w)) as [[|]|]; congruence.
Qed.

(** C3: in [populateCredentials], for either value of [prompt], an
    empty url, username or password (each stage being reached only
    after the earlier ones yielded non-empty values) makes the call
    answer [false] and leaves the object as it was; the object changes
    only when the call answers [true], and then its three fields are
    exactly the three non-empty stage values. *)
Theorem populateCredentials_all_or_nothing (prompt : bool) (w : World) :
  (forall url,
      result (retrieveUrl env prompt w) = Ok url -> url = "" ->
      result (populateCredentials env prompt w) = Ok false
      /\ this (final (populateCredentials env prompt w)) = this w)
  /\ (forall url username,
        result (retrieveUrl env prompt w) = Ok url -> url <> "" ->
        result (retrieveUsername env prompt w) = Ok username -> username = "" ->
        result (populateCredentials env prompt w) = Ok false
        /\ this (final (populateCredentials env prompt w)) = this w)
  /\ (forall url username password,
        result (retrieveUrl env prompt w) = Ok url -> url <> "" ->
        result (retrieveUsername env prompt w) = Ok username -> username <> "" ->
        result (retrievePassword env prompt url username w) = Ok password ->
        password = "" ->
        result (populateCredentials env prompt w) = Ok false
        /\ this (final (populateCredentials env prompt w)) = this w)
  /\ (result (populateCredentials env prompt w) <> Ok true ->
      this (final (populateCredentials env prompt w)) = this w)
  /\ (result (populateCredentials env prompt w) = Ok true ->
      exists url username password,
        result (retrieveUrl env prompt w) = Ok url
        /\ result (retrieveUsername env prompt w) = Ok username
        /\ result (retrievePassword env prompt url username w) = Ok password
        /\ url <> "" /\ username <> "" /\ password <> ""
        /\ this (final (populateCredentials env prompt w))
           = set_credentials url username password (this w)).
Proof.
  split; [|split; [|split; [|split]]].
  - intros url Hurl Hempty. apply truthy_false in Hempty.
    rewrite populateCredentials_stages, Hurl, Hempty. split; reflexivity.
  - intros url username Hurl Hfull Huser Hempty.
    apply truthy_true in Hfull. apply truthy_false in Hempty.
    rewrite populateCredentials_stages, Hurl, Huser, Hfull, Hempty.
    split; reflexivity.
  - intros url username password Hurl Hfull Huser Hfull' Hpass Hempty.
    apply truthy_true in Hfull, Hfull'. apply truthy_false in Hempty.
    rewrite populateCredentials_stages, Hurl, Huser, Hfull, Hfull'.
    cbn [negb]; cbn zeta. rewrite Hpass, Hempty. split; reflexivity.
  - intros H. rewrite populateCredentials_not_true; auto.
  - intros H. pose proof (populateCredentials_final prompt w) as F.
    rewrite H in F. destruct F as (url & username & password & F).
    exists url, username, password.
    destruct F as (? & ? & ? & ? & ? & ? & ->). auto 10.
Qed.

Lemma populateCredentials_context (prompt b : bool) (w : World) :
  result (populateCredentials env prompt w) = Ok b ->
  exists context, _context (this w) = Some context.
Proof.
  rewrite populateCredentials_stages, retrieveUrl_eq.
  destruct (_context (this w)) as [context|]; [eauto|discriminate].
Qed.

(** *** The progress task of [connect] *)

Lemma storeUrl_eq (w : World) (context : ExtensionContext) :
  _context (this w) = Some context ->
  @storeUrl ComponentDetails w =
  Run (Ok tt)
      {| this := set_context
                   {| globalState := <[XRAY_URL_KEY := _url (this w)]> (globalState context) |}
                   (this w);
         keychain := keychain w |}
      [GlobalStateUpdate XRAY_URL_KEY (_url (this w))].
Proof.
  intros H. unfold storeUrl, globalState_update, bind, get_this; cbn [result final trace].
  rewrite H. reflexivity.
Qed.

Lemma storeUsername_eq (w : World) (context : ExtensionContext) :
  _context (this w) = Some context ->
  @storeUsername ComponentDetails w =
  Run (Ok tt)
      {| this := set_context
                   {| globalState :=
                        <[XRAY_USERNAME_KEY := _username (this w)]> (globalState context) |}
                   (this w);
         keychain := keychain w |}
      [GlobalStateUpdate XRAY_USERNAME_KEY (_username (this w))].
Proof.
  intros H. unfold storeUsername, globalState_update, bind, get_this; cbn [result final trace].
  rewrite H. reflexivity.
Qed.

Lemma storePassword_eq (w : World) :
  @storePassword ComponentDetails w =
  Run (Ok tt)
      {| this := this w;
         keychain := <[(SERVICE_ID, createAccountId (_url (this w)) (_username (this w)))
                       := _password (this w)]> (keychain w) |}
      [KeytarSetPassword SERVICE_ID
                         (createAccountId (_url (this w)) (_username (this w)))
                         (_password (this w))].
Proof. reflexivity. Qed.

(** The three writes, one after the other. *)
Lemma store_all_eq (w : World) (context : ExtensionContext) :
  _context (this w) = Some context ->
  @bind ComponentDetails _ _ storeUrl
    (fun _ => bind storeUsername (fun _ => bind storePassword (fun _ => ret true))) w =
  Run (Ok true)
      {| this := set_context
                   {| globalState :=
                        <[XRAY_USERNAME_KEY := _username (this w)]>
                          (<[XRAY_URL_KEY := _url (this w)]> (globalState context)) |}
                   (this w);
         keychain := <[(SERVICE_ID, createAccountId (_url (this w)) (_username (this w)))
                       := _password (this w)]> (keychain w) |}
      [GlobalStateUpdate XRAY_URL_KEY (_url (this w));
       GlobalStateUpdate XRAY_USERNAME_KEY (_username (this w));
       KeytarSetPassword SERVICE_ID
                         (createAccountId (_url (this w)) (_username (this w)))
                         (_password (this w))].
Proof.
  intros H.
  eapply bind_ok; [apply (storeUrl_eq w context H)| |reflexivity].
  eapply bind_ok; [apply storeUsername_eq; reflexivity| |reflexivity].
  eapply bind_ok; [apply storePassword_eq| |reflexivity].
  reflexivity.
Qed.

Lemma connect_task_eq (w : World) (client : XrayClient) (connected : bool) :
  createXrayClient env (this w) = Ok client ->
  checkConnection env client = Ok connected ->
  connect_task env w =
  if connected then
    match _context (this w) with
    | None => Run (Throw (TypeError_undefined "globalState")) w [CheckConnection client]
    | Some context =>
        Run (Ok true)
            {| this := set_context
                         {| globalState :=
                              <[XRAY_USERNAME_KEY := _username (this w)]>
                                (<[XRAY_URL_KEY := _url (this w)]> (globalState context)) |}
                         (this w);
               keychain := <[(SERVICE_ID, createAccountId (_url (this w)) (_username (this w)))
                             := _password (this w)]> (keychain w) |}
            [CheckConnection client;
             GlobalStateUpdate XRAY_URL_KEY (_url (this w));
             GlobalStateUpdate XRAY_USERNAME_KEY (_username (this w));
             KeytarSetPassword SERVICE_ID
                               (createAccountId (_url (this w)) (_username (this w)))
                               (_password (this w))]
    end
  else Run (Ok false) w [CheckConnection client].
Proof.
  intros Hclient Hcheck. unfold connect_task.
  assert (Hfour : forall (k : bool -> @M ComponentDetails bool) r w2 t,
             k connected w = Run r w2 t ->
             bind get_this (fun cm =>
               bind (lift (createXrayClient env cm)) (fun xrayClient =>
                 bind (emit (CheckConnection xrayClient)) (fun _ =>
                   bind (lift (checkConnection env xrayClient)) k))) w
             = Run r w2 (CheckConnection client :: t)).
  { intros k r w2 t Hk.
    eapply bind_ok; [reflexivity| |reflexivity].
    eapply bind_ok; [unfold lift; rewrite Hclient; reflexivity| |reflexivity].
    eapply bind_ok; [reflexivity| |reflexivity].
    eapply bind_ok; [unfold lift; rewrite Hcheck; reflexivity|exact Hk|reflexivity]. }
  destruct connected; [|apply Hfour; reflexivity].
  destruct (_context (this w)) as [context|] eqn:Hc; apply Hfour; cbn [negb].
  - apply (store_all_eq w context Hc).
  - apply bind_throw. unfold storeUrl.
    eapply bind_ok; [reflexivity| |reflexivity].
    unfold globalState_update.
    eapply bind_ok; [reflexivity| |reflexivity].
    rewrite Hc. reflexivity.
Qed.

Lemma connect_after_populate (w : World) :
  result (populateCredentials env true w) = Ok true ->
  connect env w =
  Run (result (connect_task env (final (populateCredentials env true w))))
      (final (connect_task env (final (populateCredentials env true w))))
      (trace (populateCredentials env true w)
         ++ WithProgress "Checking connection with Xray server..."
         :: trace (connect_task env (final (populateCredentials env true w)))).
Proof.
  intros Hpop. unfold connect.
  eapply bind_ok; [rewrite <- Hpop; symmetry; apply run_eta| |reflexivity].
  cbn [negb]. unfold window_withProgress.
  eapply bind_ok; [reflexivity| |reflexivity].
  symmetry. apply run_eta.
Qed.

Lemma connect_not_populated (w : World) :
  result (populateCredentials env true w) <> Ok true ->
  connect env w =
  Run (result (populateCredentials env true w)) w (trace (populateCredentials env true w)).
Proof.
  intros Hpop.
  pose proof (populateCredentials_not_true true w Hpop) as Hw.
  pose proof (run_eta (populateCredentials env true w)) as Heta.
  rewrite Hw in Heta. unfold connect.
  destruct (result (populateCredentials env true w)) as [[|]|].
  - congruence.
  - eapply bind_ok; [symmetry; apply Heta|reflexivity|]. rewrite app_nil_r. reflexivity.
  - apply bind_throw. symmetry. apply Heta.
Qed.

(** C1: when [populateCredentials(true)] succeeds and
    [checkConnection] answers [false] on the client built from the
    populated credentials, [connect] answers [false]; the call updates
    neither the durable state nor the key store (no such event, and
    both stores are as before); and the object keeps the credentials
    the user entered, so that they are set from then on. *)
Theorem connect_validation_fails (w : World) (client : XrayClient) :
  result (populateCredentials env true w) = Ok true ->
  createXrayClient env (this (final (populateCredentials env true w))) = Ok client ->
  checkConnection env client = Ok false ->
  result (connect env w) = Ok false
  /\ Forall (fun e => is_write e = false) (trace (connect env w))
  /\ _context (this (final (connect env w))) = _context (this w)
  /\ keychain (final (connect env w)) = keychain w
  /\ this (final (connect env w))
     = set_credentials (or_empty (showInputBox env (url_box (this w))))
                       (or_empty (showInputBox env (username_box (this w))))
                       (or_empty (showInputBox env password_box))
                       (this w)
  /\ areCredentialsSet (this (final (connect env w))) = true.
Proof.
  intros Hpop Hclient Hcheck.
  rewrite (connect_after_populate w Hpop).
  rewrite (connect_task_eq _ client false Hclient Hcheck).
  cbn [result final trace].
  destruct (populateCredentials_true true w Hpop) as (Hset & Hctx & Hkey).
  split; [reflexivity|]. split.
  { apply Forall_app. split; [apply populateCredentials_no_write|repeat constructor]. }
  split; [assumption|]. split; [assumption|]. split; [|assumption].
  pose proof (populateCredentials_final true w) as F. rewrite Hpop in F.
  destruct F as (url & username & password & Hurl & Huser & Hpass & _ & _ & _ & ->).
  destruct (populateCredentials_context true true w Hpop) as [context Hc].
  rewrite retrieveUrl_eq, Hc in Hurl. rewrite retrieveUsername_eq, Hc in Huser.
  rewrite retrievePassword_eq in Hpass. cbn [result] in Hurl, Huser, Hpass.
  cbn [this]. congruence.
Qed.

(** C2: when [populateCredentials(true)] succeeds and
    [checkConnection] answers [true], [connect] answers [true] and its
    writes are, in this order and with no other write: the url to the
    durable state, the username to the durable state, the password to
    the key store under the account id of that url and username.
    Afterwards the stores hold the three values. *)
Theorem connect_validation_succeeds (w : World) (client : XrayClient) :
  result (populateCredentials env true w) = Ok true ->
  createXrayClient env (this (final (populateCredentials env true w))) = Ok client ->
  checkConnection env client = Ok true ->
  let url := or_empty (showInputBox env (url_box (this w))) in
  let username := or_empty (showInputBox env (username_box (this w))) in
  let password := or_empty (showInputBox env password_box) in
  result (connect env w) = Ok true
  /\ trace (connect env w)
     = trace (populateCredentials env true w)
         ++ [WithProgress "Checking connection with Xray server...";
             CheckConnection client;
             GlobalStateUpdate XRAY_URL_KEY url;
             GlobalStateUpdate XRAY_USERNAME_KEY username;
             KeytarSetPassword SERVICE_ID (createAccountId url username) password]
  /\ List.filter is_write (trace (connect env w))
     = [GlobalStateUpdate XRAY_URL_KEY url;
        GlobalStateUpdate XRAY_USERNAME_KEY username;
        KeytarSetPassword SERVICE_ID (createAccountId url username) password]
  /\ (exists context,
         _context (this (final (connect env w))) = Some context
         /\ globalState context !! XRAY_URL_KEY = Some url
         /\ globalState context !! XRAY_USERNAME_KEY = Some username)
  /\ keychain (final (connect env w)) !! (SERVICE_ID, createAccountId url username)
     = Some password.
Proof.
  intros Hpop Hclient Hcheck url username password.
  rewrite (connect_after_populate w Hpop).
  rewrite (connect_task_eq _ client true Hclient Hcheck).
  pose proof (populateCredentials_final true w) as F. rewrite Hpop in F.
  destruct F as (url' & username' & password' & Hurl & Huser & Hpass & _ & _ & _ & F).
  destruct (populateCredentials_context true true w Hpop) as [context Hc].
  rewrite retrieveUrl_eq, Hc in Hurl. rewrite retrieveUsername_eq, Hc in Huser.
  rewrite retrievePassword_eq in Hpass. cbn [result] in Hurl, Huser, Hpass.
  injection Hurl as <-. injection Huser as <-. injection Hpass as <-.
  fold url username password in F. rewrite F.
  cbn [this set_credentials _context _url _username _password keychain].
  rewrite Hc. cbn [result final trace this keychain].
  split; [reflexivity|]. split; [reflexivity|]. split.
  { rewrite List.filter_app.
    assert (List.filter is_write (trace (populateCredentials env true w)) = []) as ->.
    { pose proof (populateCredentials_no_write true w) as N.
      induction N as [|e l He _ IH]; [reflexivity|]. cbn. rewrite He. exact IH. }
    reflexivity. }
  split.
  { eexists. split; [reflexivity|]. cbn [globalState]. split.
    - rewrite lookup_insert_ne by discriminate. apply lookup_insert_eq.
    - apply lookup_insert_eq. }
  apply lookup_insert_eq.
Qed.

(** *** Events of a sequence *)

Lemma Forall_trace_bind {A B} (P : event -> Prop)
      (m : @M ComponentDetails A) (k : A -> @M ComponentDetails B) (w : World) :
  Forall P (trace (m w)) ->
  (forall a, Forall P (trace (k a (final (m w))))) ->
  Forall P (trace (bind m k w)).
Proof.
  intros Hm Hk. rewrite trace_bind.
  destruct (result (m w)) as [a|]; [|assumption].
  apply Forall_app. split; [assumption|apply Hk].
Qed.

(** C6: a call of [populateCredentials(false)] shows no input box,
    and neither does a call of [activate] or of [getComponents], the
    two methods that populate without prompting. *)
Theorem populate_without_prompt_shows_no_input_box
        (context : ExtensionContext) (componentDetails : list ComponentDetails) (w : World) :
  Forall (fun e => is_prompt e = false) (trace (populateCredentials env false w))
  /\ Forall (fun e => is_prompt e = false) (trace (activate env context w))
  /\ Forall (fun e => is_prompt e = false) (trace (getComponents env componentDetails w)).
Proof.
  split; [apply populateCredentials_no_prompt|]. split.
  - unfold activate.
    apply Forall_trace_bind; [constructor|intros cm].
    apply Forall_trace_bind; [constructor|intros _].
    apply Forall_trace_bind; [apply populateCredentials_no_prompt|intros _].
    constructor.
  - unfold getComponents.
    apply Forall_trace_bind; [constructor|intros cm].
    apply Forall_trace_bind.
    { destruct (negb (areCredentialsSet cm)); [|constructor].
      apply Forall_trace_bind; [apply populateCredentials_no_prompt|intros _].
      constructor. }
    intros _.
    apply Forall_trace_bind; [constructor|intros cm'].
    apply Forall_trace_bind; [constructor|intros xrayClient].
    apply Forall_trace_bind; [repeat constructor|intros _].
    apply Forall_trace_bind; [constructor|intros summaryResponse].
    constructor.
Qed.

(** C4 (as the code has it): the key-store lookup made during
    [populateCredentials] is keyed by the account id of the url and
    username that the two earlier stages of the same call yielded:
    the stored ones when [prompt] is false, the ones just entered in
    the input boxes when [prompt] is true.  The lookup is made as soon
    as both are non-empty. *)
Theorem vault_lookup_key (prompt : bool) (w : World) :
  (forall service account,
      In (KeytarGetPassword service account) (trace (populateCredentials env prompt w)) ->
      exists context,
        _context (this w) = Some context
        /\ service = SERVICE_ID
        /\ account
           = createAccountId
               (if prompt
                then or_empty (showInputBox env (url_box (this w)))
                else or_empty (globalState context !! XRAY_URL_KEY))
               (if prompt
                then or_empty (showInputBox env (username_box (this w)))
                else or_empty (globalState context !! XRAY_USERNAME_KEY)))
  /\ (forall url username,
         result (retrieveUrl env prompt w) = Ok url -> url <> "" ->
         result (retrieveUsername env prompt w) = Ok username -> username <> "" ->
         In (KeytarGetPassword SERVICE_ID (createAccountId url username))
            (trace (populateCredentials env prompt w))).
Proof.
  split.
  - intros service account Hin.
    set (P := fun e : @event ComponentDetails =>
                e = KeytarGetPassword service account ->
                exists context,
                  _context (this w) = Some context
                  /\ service = SERVICE_ID
                  /\ account
                     = createAccountId
                         (if prompt
                          then or_empty (showInputBox env (url_box (this w)))
                          else or_empty (globalState context !! XRAY_URL_KEY))
                         (if prompt
                          then or_empty (showInputBox env (username_box (this w)))
                          else or_empty (globalState context !! XRAY_USERNAME_KEY))).
    assert (Forall P (trace (populateCredentials env prompt w))) as H.
    { apply populateCredentials_trace; [| |intros url username]; subst P.
      - rewrite retrieveUrl_eq. destruct (_context (this w)), prompt;
          repeat constructor; discriminate.
      - rewrite retrieveUsername_eq. destruct (_context (this w)), prompt;
          repeat constructor; discriminate.
      - rewrite retrieveUrl_eq, retrieveUsername_eq, retrievePassword_eq.
        destruct (_context (this w)) as [context|]; [|discriminate].
        destruct prompt; cbn [result]; intros [= <-] [= <-];
          repeat constructor; try discriminate;
          intros [= <- <-]; exists context; auto. }
    rewrite List.Forall_forall in H. exact (H _ Hin eq_refl).
  - intros url username Hurl Hfull Huser Hfull'.
    apply truthy_true in Hfull, Hfull'.
    rewrite populateCredentials_stages, Hurl, Huser, Hfull, Hfull'.
    cbn [negb]; cbn zeta.
    assert (In (KeytarGetPassword SERVICE_ID (createAccountId url username))
               (trace (retrieveUrl env prompt w)
                  ++ trace (retrieveUsername env prompt w)
                  ++ trace (retrievePassword env prompt url username w))) as Hin.
    { rewrite !in_app_iff. right. right. rewrite retrievePassword_eq.
      destruct prompt; left; reflexivity. }
    destruct (result (retrievePassword env prompt url username w)) as [password|];
      [destruct (truthy password)|]; exact Hin.
Qed.

(** *** Entered credentials *)

Lemma populateCredentials_entered
      (w : World) (context : ExtensionContext) (url username password : string) :
  _context (this w) = Some context ->
  showInputBox env (url_box (this w)) = Some url -> url <> "" ->
  showInputBox env (username_box (this w)) = Some username -> username <> "" ->
  showInputBox env password_box = Some password -> password <> "" ->
  result (populateCredentials env true w) = Ok true
  /\ final (populateCredentials env true w)
     = {| this := set_credentials url username password (this w);
          keychain := keychain w |}.
Proof.
  intros Hc Hurl Hu Huser Hn Hpass Hp.
  apply truthy_true in Hu, Hn, Hp.
  rewrite populateCredentials_stages, retrieveUrl_eq, retrieveUsername_eq, Hc.
  cbn [result]. rewrite Hurl, Huser.
  change (or_empty (Some url)) with url. change (or_empty (Some username)) with username.
  rewrite Hu, Hn. cbn [negb]; cbn zeta.
  rewrite retrievePassword_eq. cbn [result]. rewrite Hpass.
  change (or_empty (Some password)) with password.
  rewrite Hp. split; reflexivity.
Qed.

(** C5 (as the code has it): when the user enters a non-empty url,
    username and password and [checkConnection] then answers [false],
    [connect] answers [false] and the entered credentials stay in the
    object, so that [areCredentialsSet] answers [true] afterwards. *)
Theorem connect_failure_keeps_credentials
        (w : World) (context : ExtensionContext)
        (url username password : string) (client : XrayClient) :
  _context (this w) = Some context ->
  showInputBox env (url_box (this w)) = Some url -> url <> "" ->
  showInputBox env (username_box (this w)) = Some username -> username <> "" ->
  showInputBox env password_box = Some password -> password <> "" ->
  createXrayClient env (set_credentials url username password (this w)) = Ok client ->
  checkConnection env client = Ok false ->
  result (connect env w) = Ok false
  /\ this (final (connect env w)) = set_credentials url username password (this w)
  /\ areCredentialsSet (this (final (connect env w))) = true.
Proof.
  intros Hc Hurl Hu Huser Hn Hpass Hp Hclient Hcheck.
  destruct (populateCredentials_entered w context url username password)
    as [Hpop Hfinal]; try assumption.
  rewrite (connect_after_populate w Hpop), Hfinal.
  rewrite (connect_task_eq {| this := set_credentials url username password (this w);
                              keychain := keychain w |} client false Hclient Hcheck).
  cbn [result final this].
  split; [reflexivity|]. split; [reflexivity|].
  apply truthy_true in Hu, Hn, Hp.
  unfold areCredentialsSet; cbn. rewrite Hu, Hn, Hp. reflexivity.
Qed.

(** *** Proxy and client configuration *)

Lemma getProxyConfig_off :
  configuration env !! "http.proxySupport" = Some "off" ->
  getProxyConfig env = Ok (ProxyBoolean false).
Proof. intros H. unfold getProxyConfig. rewrite H. reflexivity. Qed.

Lemma getProxyConfig_not_off :
  configuration env !! "http.proxySupport" <> Some "off" ->
  getProxyConfig env =
  match configuration env !! "http.proxy" with
  | Some httpProxy =>
      if truthy httpProxy then
        match new_URL env httpProxy with
        | None => Throw (ERR_INVALID_URL httpProxy)
        | Some proxyUri =>
            Ok (ProxyObject
                  (IProxyConfig.make
                     (Some (URL.protocol proxyUri))
                     (Some (URL.host proxyUri))
                     (if truthy (URL.port proxyUri)
                      then Some (to_number (URL.port proxyUri))
                      else None)))
        end
      else Ok (ProxyObject IProxyConfig.empty)
  | None => Ok (ProxyObject IProxyConfig.empty)
  end.
Proof.
  intros H. unfold getProxyConfig.
  destruct (configuration env !! "http.proxySupport") as [support|].
  - change (default "override" (Some support)) with support.
    destruct (String.eqb_spec support "off") as [->|_]; [congruence|reflexivity].
  - reflexivity.
Qed.

(** The resolved proxy is never the boolean [true]. *)
Lemma getProxyConfig_boolean (b : bool) :
  getProxyConfig env = Ok (ProxyBoolean b) -> b = false.
Proof.
  unfold getProxyConfig.
  destruct (String.eqb _ "off"); [congruence|].
  destruct (configuration env !! "http.proxy") as [httpProxy|]; [|discriminate].
  destruct (truthy httpProxy); [|discriminate].
  destruct (new_URL env httpProxy); discriminate.
Qed.

(** C7: [getProxyConfig] answers [false] when the setting
    [http.proxySupport] is "off", whatever [http.proxy] holds.
    Otherwise, with a non-empty [http.proxy] that parses as a URL, it
    answers an object with that URL's protocol and host, whose port
    is set exactly when the URL's port is non-empty (and is then its
    number); and with [http.proxy] undefined or empty it answers the
    empty object. *)
Theorem getProxyConfig_cases :
  (configuration env !! "http.proxySupport" = Some "off" ->
   getProxyConfig env = Ok (ProxyBoolean false))
  /\ (configuration env !! "http.proxySupport" <> Some "off" ->
      (forall httpProxy proxyUri,
          configuration env !! "http.proxy" = Some httpProxy -> httpProxy <> "" ->
          new_URL env httpProxy = Some proxyUri ->
          exists proxyConfig,
            getProxyConfig env = Ok (ProxyObject proxyConfig)
            /\ IProxyConfig.protocol proxyConfig = Some (URL.protocol proxyUri)
            /\ IProxyConfig.host proxyConfig = Some (URL.host proxyUri)
            /\ (URL.port proxyUri <> "" ->
                IProxyConfig.port proxyConfig = Some (to_number (URL.port proxyUri)))
            /\ (URL.port proxyUri = "" -> IProxyConfig.port proxyConfig = None))
      /\ (defined_truthy (configuration env !! "http.proxy") = false ->
          getProxyConfig env = Ok (ProxyObject IProxyConfig.empty))).
Proof.
  split; [apply getProxyConfig_off|].
  intros Hon. rewrite (getProxyConfig_not_off Hon). split.
  - intros httpProxy proxyUri -> Hfull ->.
    apply truthy_true in Hfull. rewrite Hfull.
    eexists. split; [reflexivity|]. cbn.
    split; [reflexivity|]. split; [reflexivity|]. split.
    + intros Hport. apply truthy_true in Hport. rewrite Hport. reflexivity.
    + intros Hport. apply truthy_false in Hport. rewrite Hport. reflexivity.
  - destruct (configuration env !! "http.proxy") as [httpProxy|]; [|reflexivity].
    cbn [defined_truthy]. intros ->. reflexivity.
Qed.

(** The headers both factories end up with, for a resolved proxy. *)
Definition built_headers (p : proxy) : gmap string string :=
  let user_agent : gmap string string := <["User-Agent" := USER_AGENT env]> ∅ in
  if proxy_truthy (Some p) then
    match configuration env !! "http.proxyAuthorization" with
    | Some proxyAuthHeader =>
        if truthy proxyAuthHeader
        then <["Proxy-Authorization" := proxyAuthHeader]> user_agent
        else user_agent
    | None => user_agent
    end
  else user_agent.

Lemma add_headers_eq (serverUrl username password : option string) (p : proxy) :
  outcome_bind
    (addUserAgentHeader env (IClientConfig.make serverUrl username password (Some ∅) (Some p)))
    (addProxyAuthHeader env)
  = Ok (IClientConfig.make serverUrl username password (Some (built_headers p)) (Some p)).
Proof.
  unfold addUserAgentHeader, addProxyAuthHeader, set_header, built_headers, outcome_bind.
  cbn [IClientConfig.headers IClientConfig.proxy IClientConfig.set_headers
       IClientConfig.serverUrl IClientConfig.username IClientConfig.password].
  destruct (proxy_truthy (Some p)); [|reflexivity].
  destruct (configuration env !! "http.proxyAuthorization") as [v|]; [|reflexivity].
  destruct (truthy v); reflexivity.
Qed.

Lemma createXrayClient_eq (cm : ConnectionManager) :
  createXrayClient env cm =
  match getProxyConfig env with
  | Ok p =>
      Ok {| xray_config :=
              IClientConfig.make (Some (_url cm)) (Some (_username cm)) (Some (_password cm))
                                 (Some (built_headers p)) (Some p) |}
  | Throw e => Throw e
  end.
Proof.
  unfold createXrayClient. destruct (getProxyConfig env) as [p|e]; [|reflexivity].
  cbn [outcome_bind].
  pose proof (add_headers_eq (Some (_url cm)) (Some (_username cm)) (Some (_password cm)) p) as H.
  unfold outcome_bind in H |- *.
  destruct (addUserAgentHeader env _) as [c|]; [|discriminate].
  rewrite H. reflexivity.
Qed.

Lemma createGoCenterClient_eq (cm : ConnectionManager) :
  createGoCenterClient env cm =
  match getProxyConfig env with
  | Ok p =>
      Ok {| gocenter_config :=
              IClientConfig.make None None None (Some (built_headers p)) (Some p) |}
  | Throw e => Throw e
  end.
Proof.
  unfold createGoCenterClient. destruct (getProxyConfig env) as [p|e]; [|reflexivity].
  cbn [outcome_bind].
  pose proof (add_headers_eq None None None p) as H.
  unfold outcome_bind in H |- *.
  destruct (addUserAgentHeader env _) as [c|]; [|discriminate].
  rewrite H. reflexivity.
Qed.

Lemma built_headers_user_agent (p : proxy) :
  built_headers p !! "User-Agent" = Some (USER_AGENT env).
Proof.
  unfold built_headers.
  destruct (proxy_truthy (Some p)); [|apply lookup_insert_eq].
  destruct (configuration env !! "http.proxyAuthorization") as [v|];
    [|apply lookup_insert_eq].
  destruct (truthy v); [|apply lookup_insert_eq].
  rewrite lookup_insert_ne by discriminate. apply lookup_insert_eq.
Qed.

Lemma built_headers_proxy_authorization (p : proxy) :
  getProxyConfig env = Ok p ->
  (is_Some (built_headers p !! "Proxy-Authorization")
   <-> p <> ProxyBoolean false
       /\ defined_truthy (configuration env !! "http.proxyAuthorization") = true)
  /\ (forall v, built_headers p !! "Proxy-Authorization" = Some v ->
                configuration env !! "http.proxyAuthorization" = Some v).
Proof.
  intros Hp. unfold built_headers.
  assert (Hnone : (<["User-Agent" := USER_AGENT env]> ∅ : gmap string string)
                    !! "Proxy-Authorization" = None).
  { rewrite lookup_insert_ne by discriminate. apply lookup_empty. }
  destruct p as [b|c]; cbn [proxy_truthy].
  - rewrite (getProxyConfig_boolean b Hp). rewrite Hnone. split.
    + split; [intros [v Hv]; discriminate|intros [H _]; congruence].
    + discriminate.
  - destruct (configuration env !! "http.proxyAuthorization") as [v|]; cbn [defined_truthy].
    + destruct (truthy v).
      * rewrite lookup_insert_eq. split; [|congruence].
        split; [intros _; split; [discriminate|reflexivity]|eauto].
      * rewrite Hnone. split; [|discriminate].
        split; [intros [? ?]; discriminate|intros [_ ?]; discriminate].
    + rewrite Hnone. split; [|discriminate].
      split; [intros [? ?]; discriminate|intros [_ ?]; discriminate].
Qed.

(** C8: in the configuration of a client built by either factory,
    the header [Proxy-Authorization] is present if and only if the
    resolved proxy is not [false] and the setting
    [http.proxyAuthorization] holds a non-empty string (the way the
    code tests that a value exists); the header then carries that
    string. *)
Theorem proxy_authorization_header_iff (cm : ConnectionManager) :
  (forall client p,
      createXrayClient env cm = Ok client -> getProxyConfig env = Ok p ->
      (is_Some (header "Proxy-Authorization" (xray_config client))
       <-> p <> ProxyBoolean false
           /\ defined_truthy (configuration env !! "http.proxyAuthorization") = true)
      /\ (forall v, header "Proxy-Authorization" (xray_config client) = Some v ->
                    configuration env !! "http.proxyAuthorization" = Some v))
  /\ (forall client p,
         createGoCenterClient env cm = Ok client -> getProxyConfig env = Ok p ->
         (is_Some (header "Proxy-Authorization" (gocenter_config client))
          <-> p <> ProxyBoolean false
              /\ defined_truthy (configuration env !! "http.proxyAuthorization") = true)
         /\ (forall v, header "Proxy-Authorization" (gocenter_config client) = Some v ->
                       configuration env !! "http.proxyAuthorization" = Some v)).
Proof.
  split; intros client p Hclient Hp.
  - rewrite createXrayClient_eq, Hp in Hclient. injection Hclient as <-.
    apply (built_headers_proxy_authorization p Hp).
  - rewrite createGoCenterClient_eq, Hp in Hclient. injection Hclient as <-.
    apply (built_headers_proxy_authorization p Hp).
Qed.

(** C9: the configuration built for the GoCenter client does not
    depend on the object's credentials (any two objects get the same
    outcome), has no [serverUrl], [username] or [password] field, and
    carries the [User-Agent] header and the resolved proxy. *)
Theorem goCenter_client_has_no_credentials :
  (forall cm cm', createGoCenterClient env cm = createGoCenterClient env cm')
  /\ (forall cm client,
         createGoCenterClient env cm = Ok client ->
         IClientConfig.serverUrl (gocenter_config client) = None
         /\ IClientConfig.username (gocenter_config client) = None
         /\ IClientConfig.password (gocenter_config client) = None
         /\ header "User-Agent" (gocenter_config client) = Some (USER_AGENT env)
         /\ exists p, getProxyConfig env = Ok p
                      /\ IClientConfig.proxy (gocenter_config client) = Some p).
Proof.
  split.
  - intros cm cm'. rewrite !createGoCenterClient_eq. reflexivity.
  - intros cm client. rewrite createGoCenterClient_eq.
    destruct (getProxyConfig env) as [p|]; [|discriminate].
    intros [= <-]. cbn [gocenter_config IClientConfig.serverUrl IClientConfig.username
                        IClientConfig.password IClientConfig.proxy].
    repeat (split; [reflexivity|]). split; [apply built_headers_user_agent|eauto].
Qed.

(** *** Consistency of the credentials is kept by every method *)

Definition keeps {A} (m : @M ComponentDetails A) : Prop :=
  forall w, credentials_consistent (this w) ->
            credentials_consistent (this (final (m w))).

Lemma keeps_bind {A B} (m : @M ComponentDetails A) (k : A -> @M ComponentDetails B) :
  keeps m -> (forall a, keeps (k a)) -> keeps (bind m k).
Proof.
  intros Hm Hk w Hw. rewrite final_bind.
  destruct (result (m w)) as [a|]; [apply Hk|]; apply Hm, Hw.
Qed.

Lemma keeps_same {A} (m : @M ComponentDetails A) :
  (forall w, final (m w) = w) -> keeps m.
Proof. intros H w Hw. rewrite H. exact Hw. Qed.

Lemma consistent_set_context (context : ExtensionContext) (cm : ConnectionManager) :
  credentials_consistent cm -> credentials_consistent (set_context context cm).
Proof. intros H. exact H. Qed.

Lemma keeps_globalState_update (key value : string) :
  keeps (@globalState_update ComponentDetails key value).
Proof.
  intros w Hw. unfold globalState_update.
  rewrite final_bind. cbn [get_this result final].
  destruct (_context (this w)) as [context|]; [|exact Hw].
  rewrite final_bind. cbn [emit put_this result final this].
  apply consistent_set_context, Hw.
Qed.

Lemma keeps_populateCredentials (prompt : bool) :
  keeps (populateCredentials env prompt).
Proof.
  intros w Hw. pose proof (populateCredentials_final prompt w) as F.
  destruct (result (populateCredentials env prompt w)) as [[|]|]; try (rewrite F; exact Hw).
  destruct F as (url & username & password & _ & _ & _ & Hu & Hn & Hp & ->).
  right. apply truthy_true in Hu, Hn, Hp.
  unfold areCredentialsSet; cbn. rewrite Hu, Hn, Hp. reflexivity.
Qed.

Lemma keeps_connect_task : keeps (connect_task env).
Proof.
  unfold connect_task.
  apply keeps_bind; [apply keeps_same; reflexivity|intros cm].
  apply keeps_bind; [apply keeps_same; reflexivity|intros xrayClient].
  apply keeps_bind; [apply keeps_same; reflexivity|intros _].
  apply keeps_bind; [apply keeps_same; reflexivity|intros connected].
  destruct (negb connected); [apply keeps_same; reflexivity|].
  apply keeps_bind.
  { intros w Hw. unfold storeUrl. rewrite final_bind. cbn [get_this result final].
    apply keeps_globalState_update, Hw. }
  intros _. apply keeps_bind.
  { intros w Hw. unfold storeUsername. rewrite final_bind. cbn [get_this result final].
    apply keeps_globalState_update, Hw. }
  intros _. apply keeps_bind; [|intros _; apply keeps_same; reflexivity].
  intros w Hw. exact Hw.
Qed.

Lemma keeps_connect : keeps (connect env).
Proof.
  unfold connect.
  apply keeps_bind; [apply keeps_populateCredentials|intros populated].
  destruct (negb populated); [apply keeps_same; reflexivity|].
  unfold window_withProgress.
  apply keeps_bind; [apply keeps_same; reflexivity|intros _; apply keeps_connect_task].
Qed.

Lemma keeps_activate (context : ExtensionContext) : keeps (activate env context).
Proof.
  intros w Hw. unfold activate.
  rewrite final_bind. cbn [get_this result final].
  rewrite final_bind. cbn [put_this result final].
  rewrite final_bind.
  assert (credentials_consistent
            (this (final (populateCredentials env false
                            {| this := set_context context (this w);
                               keychain := keychain w |})))) as H.
  { apply keeps_populateCredentials. exact Hw. }
  destruct (result (populateCredentials env false _)); exact H.
Qed.

Lemma keeps_getComponents (componentDetails : list ComponentDetails) :
  keeps (getComponents env componentDetails).
Proof.
  unfold getComponents.
  apply keeps_bind; [apply keeps_same; reflexivity|intros cm].
  apply keeps_bind.
  { destruct (negb (areCredentialsSet cm)); [|apply keeps_same; reflexivity].
    apply keeps_bind; [apply keeps_populateCredentials|intros _].
    apply keeps_same; reflexivity. }
  intros _.
  apply keeps_bind; [apply keeps_same; reflexivity|intros cm'].
  apply keeps_bind; [apply keeps_same; reflexivity|intros xrayClient].
  apply keeps_bind; [apply keeps_same; reflexivity|intros _].
  apply keeps_bind; [apply keeps_same; reflexivity|intros summaryResponse].
  apply keeps_same; reflexivity.
Qed.

Lemma keeps_getGoCenterModules (componentDetails : list ComponentDetails) :
  keeps (getGoCenterModules env componentDetails).
Proof.
  unfold getGoCenterModules.
  apply keeps_bind; [apply keeps_same; reflexivity|intros cm].
  apply keeps_bind; [apply keeps_same; reflexivity|intros goCenterClient].
  apply keeps_bind; [apply keeps_same; reflexivity|intros _].
  apply keeps_bind; [apply keeps_same; reflexivity|intros moduleResponse].
  apply keeps_same; reflexivity.
Qed.

End Properties.

(** Every reachable object has its three credentials all empty or all
    non-empty. *)
Lemma reachable_consistent {ComponentDetails IArtifact IComponentMetadata : Type}
      (w : World) :
  @reachable ComponentDetails IArtifact IComponentMetadata w ->
  credentials_consistent (this w).
Proof.
  induction 1 as [k|w k _ IH|env context w _ IH|env w _ IH
                  |env componentDetails w _ IH|env componentDetails w _ IH].
  - left. auto.
  - exact IH.
  - apply keeps_activate, IH.
  - apply keeps_connect, IH.
  - apply keeps_getComponents, IH.
  - apply keeps_getGoCenterModules, IH.
Qed.

Section GetComponents.

Context {ComponentDetails IArtifact IComponentMetadata : Type}.
Variable env : @Env ComponentDetails IArtifact IComponentMetadata.

(** C10: on a reachable object whose credentials are not set, when
    the non-interactive populate answers [false] (and the proxy
    settings resolve), [getComponents] raises no error of its own: it
    builds a client whose url, username and password are the empty
    string, sends it the component-summary request, and answers what
    that request answers. *)
Theorem getComponents_without_credentials
        (componentDetails : list ComponentDetails) (w : World) (p : proxy) :
  @reachable ComponentDetails IArtifact IComponentMetadata w ->
  areCredentialsSet (this w) = false ->
  result (populateCredentials env false w) = Ok false ->
  getProxyConfig env = Ok p ->
  exists client,
    createXrayClient env (this (final (populateCredentials env false w))) = Ok client
    /\ IClientConfig.serverUrl (xray_config client) = Some ""
    /\ IClientConfig.username (xray_config client) = Some ""
    /\ IClientConfig.password (xray_config client) = Some ""
    /\ trace (getComponents env componentDetails w)
       = trace (populateCredentials env false w)
           ++ [SummaryComponent client {| component_details := componentDetails |}]
    /\ result (getComponents env componentDetails w)
       = match summary_component env client {| component_details := componentDetails |} with
         | Ok summaryResponse => Ok (artifacts summaryResponse)
         | Throw e => Throw e
         end.
Proof.
  intros Hreach Hunset Hpop Hp.
  assert (Hempty : _url (this w) = "" /\ _username (this w) = "" /\ _password (this w) = "").
  { destruct (reachable_consistent w Hreach) as [H|H]; [exact H|congruence]. }
  destruct Hempty as (Hurl & Huser & Hpass).
  assert (Hfinal : final (populateCredentials env false w) = w).
  { apply populateCredentials_not_true. rewrite Hpop. discriminate. }
  pose proof (run_eta (populateCredentials env false w)) as Heta.
  rewrite Hpop, Hfinal in Heta. rewrite Hfinal.
  pose proof (createXrayClient_eq env (this w)) as Hclient.
  rewrite Hp, Hurl, Huser, Hpass in Hclient.
  eexists. split; [exact Hclient|].
  cbn [xray_config IClientConfig.serverUrl IClientConfig.username IClientConfig.password].
  repeat (split; [reflexivity|]).
  set (client := {| xray_config := _ |}) in *.
  set (request := {| component_details := componentDetails |}).
  assert (Hrun : getComponents env componentDetails w
                 = Run (match summary_component env client request with
                        | Ok summaryResponse => Ok (artifacts summaryResponse)
                        | Throw e => Throw e
                        end)
                       w
                       (trace (populateCredentials env false w)
                          ++ [SummaryComponent client request])).
  { unfold getComponents.
    eapply bind_ok; [reflexivity| |reflexivity].
    rewrite Hunset. cbn [negb].
    eapply bind_ok;
      [eapply bind_ok; [symmetry; exact Heta|reflexivity|symmetry; apply app_nil_r]|
      |reflexivity].
    eapply bind_ok; [reflexivity| |reflexivity].
    eapply bind_ok; [unfold lift; rewrite Hclient; reflexivity| |reflexivity].
    eapply bind_ok; [reflexivity| |reflexivity].
    fold request.
    destruct (summary_component env client request) as [summaryResponse|e] eqn:Hsum.
    - eapply bind_ok; [unfold lift; rewrite ?Hsum; reflexivity|reflexivity|reflexivity].
    - apply bind_throw. unfold lift. rewrite ?Hsum. reflexivity. }
  rewrite Hrun. split; reflexivity.
Qed.

End GetComponents.

(** * Sample runs *)

Example to_number_8080 : to_number "8080" = Num 8080.
Proof. reflexivity. Qed.

(** C1 on a run: the server rejects the entered credentials. *)
Lemma connect_validation_fails_sample :
  result (connect Sample.refusing Sample.fresh) = Ok false
  /\ Forall (fun e => is_write e = false) (trace (connect Sample.refusing Sample.fresh))
  /\ _context (this (final (connect Sample.refusing Sample.fresh)))
     = _context (this Sample.fresh)
  /\ keychain (final (connect Sample.refusing Sample.fresh)) = keychain Sample.fresh
  /\ this (final (connect Sample.refusing Sample.fresh))
     = set_credentials
         (or_empty (showInputBox Sample.refusing (url_box (this Sample.fresh))))
         (or_empty (showInputBox Sample.refusing (username_box (this Sample.fresh))))
         (or_empty (showInputBox Sample.refusing password_box))
         (this Sample.fresh)
  /\ areCredentialsSet (this (final (connect Sample.refusing Sample.fresh))) = true.
Proof.
  eapply (connect_validation_fails Sample.refusing Sample.fresh).
  - vm_compute. reflexivity.
  - vm_compute. reflexivity.
  - reflexivity.
Defined.

(** C2 on a run: the server accepts the entered credentials. *)
Lemma connect_validation_succeeds_sample :
  result (connect Sample.accepting Sample.fresh) = Ok true
  /\ List.filter is_write (trace (connect Sample.accepting Sample.fresh))
     = [GlobalStateUpdate XRAY_URL_KEY "https://x.example";
        GlobalStateUpdate XRAY_USERNAME_KEY "bob";
        KeytarSetPassword SERVICE_ID (createAccountId "https://x.example" "bob") "secret"]
  /\ keychain (final (connect Sample.accepting Sample.fresh))
       !! (SERVICE_ID, createAccountId "https://x.example" "bob")
     = Some "secret".
Proof.
  edestruct (connect_validation_succeeds Sample.accepting Sample.fresh)
    as (Hresult & _ & Hwrites & _ & Hvault).
  - vm_compute. reflexivity.
  - vm_compute. reflexivity.
  - reflexivity.
  - split; [exact Hresult|]. split; [exact Hwrites|exact Hvault].
Defined.

(** C3 on the scenario of a stored url and no stored username, without
    prompting. *)
Lemma populateCredentials_all_or_nothing_sample :
  result (retrieveUrl Sample.silent false Sample.url_only) = Ok "https://x.example"
  /\ result (retrieveUsername Sample.silent false Sample.url_only) = Ok ""
  /\ result (populateCredentials Sample.silent false Sample.url_only) = Ok false
  /\ this (final (populateCredentials Sample.silent false Sample.url_only))
     = this Sample.url_only.
Proof.
  split; [vm_compute; reflexivity|]. split; [vm_compute; reflexivity|].
  apply (proj1 (proj2 (populateCredentials_all_or_nothing
                         Sample.silent false Sample.url_only))
               "https://x.example" "").
  - vm_compute. reflexivity.
  - discriminate.
  - vm_compute. reflexivity.
  - reflexivity.
Defined.

(** C4, the claim refuted: with an earlier account stored and a new one
    entered, the only key-store lookup of [populateCredentials(true)] is
    under the account id of the entered url and username, which is
    neither the one of the url and username in the durable state nor
    the one of the (empty) url and username the object holds. *)
Lemma vault_lookup_not_keyed_by_stored_account :
  globalState Sample.stored_context !! XRAY_URL_KEY = Some "https://old.example"
  /\ globalState Sample.stored_context !! XRAY_USERNAME_KEY = Some "alice"
  /\ showInputBox Sample.refusing (url_box (this Sample.stored)) = Some "https://x.example"
  /\ showInputBox Sample.refusing (username_box (this Sample.stored)) = Some "bob"
  /\ List.filter is_vault_lookup
                 (trace (populateCredentials Sample.refusing true Sample.stored))
     = [KeytarGetPassword SERVICE_ID (createAccountId "https://x.example" "bob")]
  /\ createAccountId "https://x.example" "bob"
     <> createAccountId "https://old.example" "alice"
  /\ createAccountId "https://x.example" "bob"
     <> createAccountId (_url (this Sample.stored)) (_username (this Sample.stored)).
Proof.
  repeat split; try (vm_compute; reflexivity); vm_compute; discriminate.
Qed.

(** C4 on the same run. *)
Lemma vault_lookup_key_sample :
  exists context,
    _context (this Sample.stored) = Some context
    /\ SERVICE_ID = SERVICE_ID
    /\ createAccountId "https://x.example" "bob"
       = createAccountId
           (or_empty (showInputBox Sample.refusing (url_box (this Sample.stored))))
           (or_empty (showInputBox Sample.refusing (username_box (this Sample.stored)))).
Proof.
  apply (proj1 (vault_lookup_key Sample.refusing true Sample.stored)
               SERVICE_ID (createAccountId "https://x.example" "bob")).
  vm_compute. auto 10.
Defined.

(** C5, the claim refuted: the user enters url "https://x.example",
    username "bob" and password "secret", the server rejects them,
    [connect] answers [false], and [areCredentialsSet] is then [true],
    not [false]. *)
Lemma credentials_set_after_failed_connect :
  showInputBox Sample.refusing (url_box (this Sample.fresh)) = Some "https://x.example"
  /\ showInputBox Sample.refusing (username_box (this Sample.fresh)) = Some "bob"
  /\ showInputBox Sample.refusing password_box = Some "secret"
  /\ List.Forall (fun e => match e with
                           | CheckConnection client =>
                               checkConnection Sample.refusing client = Ok false
                           | _ => True
                           end)
                 (trace (connect Sample.refusing Sample.fresh))
  /\ result (connect Sample.refusing Sample.fresh) = Ok false
  /\ areCredentialsSet (this (final (connect Sample.refusing Sample.fresh))) = true
  /\ areCredentialsSet (this (final (connect Sample.refusing Sample.fresh))) <> false.
Proof.
  repeat split; try (vm_compute; reflexivity).
  - vm_compute. repeat constructor.
  - vm_compute. discriminate.
Qed.

(** C5 on the same run. *)
Lemma connect_failure_keeps_credentials_sample :
  result (connect Sample.refusing Sample.fresh) = Ok false
  /\ this (final (connect Sample.refusing Sample.fresh))
     = set_credentials "https://x.example" "bob" "secret" (this Sample.fresh)
  /\ areCredentialsSet (this (final (connect Sample.refusing Sample.fresh))) = true.
Proof.
  eapply (connect_failure_keeps_credentials
            Sample.refusing Sample.fresh Sample.empty_context
            "https://x.example" "bob" "secret").
  - reflexivity.
  - reflexivity.
  - discriminate.
  - reflexivity.
  - discriminate.
  - reflexivity.
  - discriminate.
  - vm_compute. reflexivity.
  - reflexivity.
Defined.

(** C7 on two settings: a proxy with a port, and the proxy switched
    off although a proxy URL is configured. *)
Lemma getProxyConfig_cases_sample :
  getProxyConfig Sample.proxy_off = Ok (ProxyBoolean false)
  /\ exists proxyConfig,
      getProxyConfig Sample.proxied = Ok (ProxyObject proxyConfig)
      /\ IProxyConfig.protocol proxyConfig = Some "http:"
      /\ IProxyConfig.host proxyConfig = Some "proxy.example:8080"
      /\ IProxyConfig.port proxyConfig = Some (Num 8080).
Proof.
  split.
  - apply (proj1 (getProxyConfig_cases Sample.proxy_off)). reflexivity.
  - destruct (proj1 (proj2 (getProxyConfig_cases Sample.proxied)
                           ltac:(vm_compute; discriminate))
                     "http://proxy.example:8080"
                     (URL.make "http:" "proxy.example:8080" "8080")
                     eq_refl ltac:(discriminate) eq_refl)
      as (proxyConfig & Hconfig & Hprotocol & Hhost & Hport & _).
    exists proxyConfig. split; [exact Hconfig|]. split; [exact Hprotocol|].
    split; [exact Hhost|]. apply Hport. discriminate.
Defined.

(** C8 on a client built behind the authenticating proxy. *)
Lemma proxy_authorization_header_iff_sample :
  exists client,
    createXrayClient Sample.proxied new_ConnectionManager = Ok client
    /\ is_Some (header "Proxy-Authorization" (xray_config client)).
Proof.
  eexists. split; [vm_compute; reflexivity|].
  eapply (proj1 (proj1 (proxy_authorization_header_iff Sample.proxied new_ConnectionManager)
                       _ _ eq_refl eq_refl)).
  split; [discriminate|reflexivity].
Defined.

(** C9 on the GoCenter client built behind the authenticating proxy. *)
Lemma goCenter_client_has_no_credentials_sample :
  exists client,
    createGoCenterClient
      Sample.proxied (set_credentials "https://x.example" "bob" "secret" new_ConnectionManager)
    = Ok client
    /\ IClientConfig.serverUrl (gocenter_config client) = None
    /\ IClientConfig.username (gocenter_config client) = None
    /\ IClientConfig.password (gocenter_config client) = None
    /\ header "User-Agent" (gocenter_config client) = Some "jfrog-vscode-extension/1.0.0".
Proof.
  eexists. split; [vm_compute; reflexivity|].
  destruct (proj2 (goCenter_client_has_no_credentials Sample.proxied)
                  (set_credentials "https://x.example" "bob" "secret" new_ConnectionManager)
                  _ eq_refl)
    as (Hurl & Huser & Hpass & Hagent & _).
  split; [exact Hurl|]. split; [exact Huser|]. split; [exact Hpass|exact Hagent].
Defined.

(** C10 on an object activated with nothing stored. *)
Lemma getComponents_without_credentials_sample :
  exists client,
    IClientConfig.serverUrl (xray_config client) = Some ""
    /\ IClientConfig.username (xray_config client) = Some ""
    /\ IClientConfig.password (xray_config client) = Some ""
    /\ In (SummaryComponent client {| component_details := ["npm://lodash:4.17.0"] |})
          (trace (getComponents Sample.silent ["npm://lodash:4.17.0"]
                                (final (activate Sample.silent Sample.empty_context
                                                 Sample.created))))
    /\ result (getComponents Sample.silent ["npm://lodash:4.17.0"]
                            (final (activate Sample.silent Sample.empty_context
                                             Sample.created)))
       = Ok [].
Proof.
  edestruct (getComponents_without_credentials
               Sample.silent ["npm://lodash:4.17.0"]
               (final (activate Sample.silent Sample.empty_context Sample.created)))
    as (client & _ & Hurl & Huser & Hpass & Htrace & Hresult).
  - apply reach_activate, reach_new.
  - vm_compute. reflexivity.
  - vm_compute. reflexivity.
  - vm_compute. reflexivity.
  - exists client. split; [exact Hurl|]. split; [exact Huser|]. split; [exact Hpass|].
    split.
    + rewrite Htrace. apply in_or_app. right. left. reflexivity.
    + exact Hresult.
Defined.

(** * Further behaviour of the class *)

Section Stages.

Context {ComponentDetails IArtifact IComponentMetadata : Type}.
Variable env : @Env ComponentDetails IArtifact IComponentMetadata.

(** Events that reach a remote service. *)
Definition contacts_server (e : @event ComponentDetails) : bool :=
  match e with
  | CheckConnection _ | SummaryComponent _ _ | GetMetadataForModules _ _ => true
  | _ => false
  end.

Definition is_progress (e : @event ComponentDetails) : bool :=
  match e with
  | WithProgress _ => true
  | _ => false
  end.

(** Events of the three stages of [populateCredentials]. *)
Definition url_events (prompt : bool) (cm : ConnectionManager) : list (@event ComponentDetails) :=
  GlobalStateGet XRAY_URL_KEY :: (if prompt then [ShowInputBox (url_box cm)] else []).

Definition username_events (prompt : bool) (cm : ConnectionManager)
  : list (@event ComponentDetails) :=
  GlobalStateGet XRAY_USERNAME_KEY :: (if prompt then [ShowInputBox (username_box cm)] else []).

Definition password_events (prompt : bool) (url username : string)
  : list (@event ComponentDetails) :=
  KeytarGetPassword SERVICE_ID (createAccountId url username)
    :: (if prompt then [ShowInputBox password_box] else []).

Lemma retrieveUrl_trace (prompt : bool) (w : World) (context : ExtensionContext) :
  _context (this w) = Some context ->
  trace (retrieveUrl env prompt w) = url_events prompt (this w).
Proof. intros H. rewrite retrieveUrl_eq, H. destruct prompt; reflexivity. Qed.

Lemma retrieveUsername_trace (prompt : bool) (w : World) (context : ExtensionContext) :
  _context (this w) = Some context ->
  trace (retrieveUsername env prompt w) = username_events prompt (this w).
Proof. intros H. rewrite retrieveUsername_eq, H. destruct prompt; reflexivity. Qed.

Lemma retrievePassword_trace (prompt : bool) (url username : string) (w : World) :
  trace (retrievePassword env prompt url username w) = password_events prompt url username.
Proof. rewrite retrievePassword_eq. destruct prompt; reflexivity. Qed.

(** The stage values once the object is activated. *)
Lemma retrieveUrl_result (prompt : bool) (w : World) (context : ExtensionContext) :
  _context (this w) = Some context ->
  result (retrieveUrl env prompt w)
  = Ok (if prompt then or_empty (showInputBox env (url_box (this w)))
        else or_empty (globalState context !! XRAY_URL_KEY)).
Proof. intros H. rewrite retrieveUrl_eq, H. destruct prompt; reflexivity. Qed.

Lemma retrieveUsername_result (prompt : bool) (w : World) (context : ExtensionContext) :
  _context (this w) = Some context ->
  result (retrieveUsername env prompt w)
  = Ok (if prompt then or_empty (showInputBox env (username_box (this w)))
        else or_empty (globalState context !! XRAY_USERNAME_KEY)).
Proof. intros H. rewrite retrieveUsername_eq, H. destruct prompt; reflexivity. Qed.

Lemma retrievePassword_result (prompt : bool) (url username : string) (w : World) :
  result (retrievePassword env prompt url username w)
  = Ok (if prompt then or_empty (showInputBox env password_box)
        else or_empty (keychain w !! (SERVICE_ID, createAccountId url username))).
Proof. rewrite retrievePassword_eq. destruct prompt; reflexivity. Qed.

(** [populateCredentials] in closed form on an activated object. *)
Lemma populateCredentials_activated (prompt : bool) (w : World) (context : ExtensionContext) :
  _context (this w) = Some context ->
  populateCredentials env prompt w =
  let url := if prompt then or_empty (showInputBox env (url_box (this w)))
             else or_empty (globalState context !! XRAY_URL_KEY) in
  let username := if prompt then or_empty (showInputBox env (username_box (this w)))
                  else or_empty (globalState context !! XRAY_USERNAME_KEY) in
  let password := if prompt then or_empty (showInputBox env password_box)
                  else or_empty (keychain w !! (SERVICE_ID, createAccountId url username)) in
  if truthy url then
    if truthy username then
      let events := url_events prompt (this w) ++ username_events prompt (this w)
                      ++ password_events prompt url username in
      if truthy password
      then Run (Ok true)
               {| this := set_credentials url username password (this w);
                  keychain := keychain w |}
               events
      else Run (Ok false) w events
    else Run (Ok false) w (url_events prompt (this w) ++ username_events prompt (this w))
  else Run (Ok false) w (url_events prompt (this w)).
Proof.
  intros H. rewrite populateCredentials_stages.
  rewrite (retrieveUrl_result prompt w context H), (retrieveUsername_result prompt w context H).
  rewrite (retrieveUrl_trace prompt w context H), (retrieveUsername_trace prompt w context H).
  cbn zeta.
  destruct (truthy (if prompt then _ else _)); cbn [negb]; [|reflexivity].
  destruct (truthy (if prompt then or_empty (showInputBox env (username_box (this w))) else _));
    cbn [negb]; [|reflexivity].
  rewrite retrievePassword_result, retrievePassword_trace.
  destruct (truthy (if prompt then or_empty (showInputBox env password_box) else _));
    reflexivity.
Qed.

Lemma populateCredentials_not_activated (prompt : bool) (w : World) :
  _context (this w) = None ->
  populateCredentials env prompt w = Run (Throw (TypeError_undefined "globalState")) w [].
Proof.
  intros H. rewrite populateCredentials_stages, retrieveUrl_eq, H. reflexivity.
Qed.

Lemma run_ok {A} (r : @run ComponentDetails A) (a : A) :
  result r = Ok a -> r = Run (Ok a) (final r) (trace r).
Proof. destruct r as [o f t]. cbn. intros ->. reflexivity. Qed.

End Stages.

Section Behaviour.

Context {ComponentDetails IArtifact IComponentMetadata : Type}.
Variable env : @Env ComponentDetails IArtifact IComponentMetadata.


(** X1: when the interactive populate answers [false] (an input box
    was dismissed or left empty), [connect] answers [false] at once: the
    world is unchanged, and the call shows no progress indicator,
    contacts no server and writes to no store. *)
Theorem connect_stops_when_populate_fails (w : World) :
  result (populateCredentials env true w) = Ok false ->
  connect env w = Run (Ok false) w (trace (populateCredentials env true w))
  /\ Forall (fun e => is_write e = false /\ contacts_server e = false /\ is_progress e = false)
            (trace (connect env w)).
Proof.
  intros Hpop.
  assert (Hrun : connect env w = Run (Ok false) w (trace (populateCredentials env true w))).
  { rewrite connect_not_populated by (rewrite Hpop; discriminate). rewrite Hpop. reflexivity. }
  split; [exact Hrun|]. rewrite Hrun. cbn [trace].
  apply populateCredentials_trace; intros;
    rewrite ?retrieveUrl_eq, ?retrieveUsername_eq, ?retrievePassword_eq;
    destruct (_context (this w)); repeat constructor.
Qed.

(** X2: on an activated object the stages of [populateCredentials] run
    in order and stop at the first empty value: an empty url ends the
    call after the url stage (the username is not read, the key store
    is not looked up, no further input box is shown), an empty username
    ends it before the key-store lookup, and otherwise the lookup is made
    under the account id of that url and username. *)
Theorem populate_stops_at_first_empty_stage
        (prompt : bool) (w : World) (context : ExtensionContext) (url username : string) :
  _context (this w) = Some context ->
  result (retrieveUrl env prompt w) = Ok url ->
  result (retrieveUsername env prompt w) = Ok username ->
  trace (populateCredentials env prompt w)
  = if truthy url then
      if truthy username
      then url_events prompt (this w) ++ username_events prompt (this w)
             ++ password_events prompt url username
      else url_events prompt (this w) ++ username_events prompt (this w)
    else url_events prompt (this w).
Proof.
  intros Hc Hurl Huser.
  rewrite (retrieveUrl_result env prompt w context Hc) in Hurl.
  rewrite (retrieveUsername_result env prompt w context Hc) in Huser.
  injection Hurl as <-. injection Huser as <-.
  rewrite (populateCredentials_activated env prompt w context Hc). cbn zeta.
  destruct (truthy (if prompt then or_empty (showInputBox env (url_box (this w))) else _));
    [|reflexivity].
  destruct (truthy (if prompt then or_empty (showInputBox env (username_box (this w))) else _));
    [|reflexivity].
  destruct (truthy (if prompt then or_empty (showInputBox env password_box) else _));
    reflexivity.
Qed.

(** X3: the interactive populate uses only what is typed: on two
    activated objects that hold the same three fields, whatever their
    durable states and key stores hold, [populateCredentials(true)]
    gives the same answer, shows the same input boxes and leaves the
    same three fields. *)
Theorem prompted_populate_ignores_stores (w1 w2 : World) (c1 c2 : ExtensionContext) :
  _context (this w1) = Some c1 -> _context (this w2) = Some c2 ->
  _url (this w1) = _url (this w2) ->
  _username (this w1) = _username (this w2) ->
  _password (this w1) = _password (this w2) ->
  result (populateCredentials env true w1) = result (populateCredentials env true w2)
  /\ List.filter is_prompt (trace (populateCredentials env true w1))
     = List.filter is_prompt (trace (populateCredentials env true w2))
  /\ _url (this (final (populateCredentials env true w1)))
     = _url (this (final (populateCredentials env true w2)))
  /\ _username (this (final (populateCredentials env true w1)))
     = _username (this (final (populateCredentials env true w2)))
  /\ _password (this (final (populateCredentials env true w1)))
     = _password (this (final (populateCredentials env true w2))).
Proof.
  intros H1 H2 Hurl Huser Hpass.
  rewrite (populateCredentials_activated env true w1 c1 H1),
          (populateCredentials_activated env true w2 c2 H2).
  cbn zeta.
  assert (Hub : url_box (this w1) = url_box (this w2)) by (unfold url_box; rewrite Hurl; reflexivity).
  assert (Hnb : username_box (this w1) = username_box (this w2))
    by (unfold username_box; rewrite Huser; reflexivity).
  rewrite Hub, Hnb.
  destruct (truthy (or_empty (showInputBox env (url_box (this w2)))));
    [|cbn; rewrite Hub; auto].
  destruct (truthy (or_empty (showInputBox env (username_box (this w2)))));
    [|cbn; rewrite Hub, Hnb; auto].
  destruct (truthy (or_empty (showInputBox env password_box)));
    cbn; rewrite Hub, Hnb; auto.
Qed.

(** [activate] installs the context and then populates without
    prompting; it never throws. *)
Lemma activate_eq (e : @Env ComponentDetails IArtifact IComponentMetadata)
      (context : ExtensionContext) (w : World) :
  activate e context w
  = Run (Ok tt)
        (final (populateCredentials e false
                  {| this := set_context context (this w); keychain := keychain w |}))
        (trace (populateCredentials e false
                  {| this := set_context context (this w); keychain := keychain w |})).
Proof.
  set (w0 := {| this := set_context context (this w); keychain := keychain w |}).
  assert (exists b, result (populateCredentials e false w0) = Ok b) as [b Hb].
  { rewrite (populateCredentials_activated e false w0 context eq_refl). cbn zeta.
    repeat match goal with |- context [if ?c then _ else _] => destruct c end; eauto. }
  unfold activate.
  eapply bind_ok; [reflexivity| |reflexivity].
  eapply bind_ok; [reflexivity| |reflexivity].
  eapply bind_ok; [apply run_ok, Hb|reflexivity|].
  cbn [app]. symmetry. apply app_nil_r.
Qed.

(** The world [connect] leaves when the entered credentials are
    accepted. *)
Lemma connect_accepted_final
      (w : World) (context : ExtensionContext) (client : XrayClient) :
  _context (this w) = Some context ->
  result (populateCredentials env true w) = Ok true ->
  createXrayClient env (this (final (populateCredentials env true w))) = Ok client ->
  checkConnection env client = Ok true ->
  let url := or_empty (showInputBox env (url_box (this w))) in
  let username := or_empty (showInputBox env (username_box (this w))) in
  let password := or_empty (showInputBox env password_box) in
  url <> "" /\ username <> "" /\ password <> ""
  /\ result (connect env w) = Ok true
  /\ final (connect env w)
     = {| this := set_context
                    {| globalState :=
                         <[XRAY_USERNAME_KEY := username]>
                           (<[XRAY_URL_KEY := url]> (globalState context)) |}
                    (set_credentials url username password (this w));
          keychain := <[(SERVICE_ID, createAccountId url username) := password]>
                        (keychain w) |}.
Proof.
  intros Hc Hpop Hclient Hcheck url username password.
  rewrite (connect_after_populate env w Hpop).
  rewrite (connect_task_eq env _ client true Hclient Hcheck).
  pose proof (populateCredentials_final env true w) as F. rewrite Hpop in F.
  destruct F as (url' & username' & password' & Hurl & Huser & Hpass & Hu & Hn & Hp & F).
  rewrite (retrieveUrl_result env true w context Hc) in Hurl.
  rewrite (retrieveUsername_result env true w context Hc) in Huser.
  rewrite retrievePassword_result in Hpass.
  injection Hurl as <-. injection Huser as <-. injection Hpass as <-.
  fold url username password in F, Hu, Hn, Hp. rewrite F.
  cbn [this set_credentials _context _url _username _password keychain].
  rewrite Hc. cbn [result final]. auto.
Qed.

(** X4: what an accepted [connect] stores comes back without any
    prompt: a new object activated in a later session (under any
    environment) with the durable state and the key store that
    [connect] left holds the url, username and password that were
    entered, and its credentials are set. *)
Theorem stored_credentials_come_back
        (w : World) (context : ExtensionContext) (client : XrayClient)
        (later : @Env ComponentDetails IArtifact IComponentMetadata)
        (context' : ExtensionContext) :
  _context (this w) = Some context ->
  result (populateCredentials env true w) = Ok true ->
  createXrayClient env (this (final (populateCredentials env true w))) = Ok client ->
  checkConnection env client = Ok true ->
  _context (this (final (connect env w))) = Some context' ->
  this (final (activate later context'
                        {| this := new_ConnectionManager;
                           keychain := keychain (final (connect env w)) |}))
  = set_credentials (or_empty (showInputBox env (url_box (this w))))
                    (or_empty (showInputBox env (username_box (this w))))
                    (or_empty (showInputBox env password_box))
                    (set_context context' new_ConnectionManager)
  /\ areCredentialsSet
       (this (final (activate later context'
                              {| this := new_ConnectionManager;
                                 keychain := keychain (final (connect env w)) |})))
     = true
  /\ Forall (fun e => is_prompt e = false)
            (trace (activate later context'
                             {| this := new_ConnectionManager;
                                keychain := keychain (final (connect env w)) |})).
Proof.
  intros Hc Hpop Hclient Hcheck Hc'.
  destruct (connect_accepted_final w context client Hc Hpop Hclient Hcheck)
    as (Hu & Hn & Hp & _ & Hfinal).
  rewrite Hfinal in Hc' |- *. cbn [this set_context _context keychain] in Hc' |- *.
  injection Hc' as <-.
  set (url := or_empty (showInputBox env (url_box (this w)))) in *.
  set (username := or_empty (showInputBox env (username_box (this w)))) in *.
  set (password := or_empty (showInputBox env password_box)) in *.
  set (stored := {| globalState := _ |}).
  set (vault := <[_ := password]> (keychain w)).
  rewrite activate_eq. cbn [result final trace this keychain].
  set (w' := {| this := set_context stored new_ConnectionManager; keychain := vault |}).
  assert (Hurl : or_empty (globalState stored !! XRAY_URL_KEY) = url).
  { subst stored. cbn [globalState].
    rewrite lookup_insert_ne by discriminate. rewrite lookup_insert_eq. reflexivity. }
  assert (Huser : or_empty (globalState stored !! XRAY_USERNAME_KEY) = username).
  { subst stored. cbn [globalState]. rewrite lookup_insert_eq. reflexivity. }
  assert (Hpass : or_empty (vault !! (SERVICE_ID, createAccountId url username)) = password).
  { subst vault. rewrite lookup_insert_eq. reflexivity. }
  split; [|split].
  - rewrite (populateCredentials_activated later false w' stored eq_refl). cbn zeta.
    rewrite Hurl, Huser. cbn [keychain w']. rewrite Hpass.
    apply truthy_true in Hu, Hn, Hp. rewrite Hu, Hn, Hp. reflexivity.
  - rewrite (populateCredentials_activated later false w' stored eq_refl). cbn zeta.
    rewrite Hurl, Huser. cbn [keychain w']. rewrite Hpass.
    apply truthy_true in Hu, Hn, Hp. rewrite Hu, Hn, Hp.
    cbn [final this]. unfold areCredentialsSet. cbn. rewrite Hu, Hn, Hp. reflexivity.
  - apply populateCredentials_no_prompt.
Qed.

(** X5: an accepted [connect] changes only its own entries: every
    other key of the durable state and every other entry of the key
    store is as before. *)
Theorem connect_touches_only_its_entries
        (w : World) (context context' : ExtensionContext) (client : XrayClient) :
  _context (this w) = Some context ->
  result (populateCredentials env true w) = Ok true ->
  createXrayClient env (this (final (populateCredentials env true w))) = Ok client ->
  checkConnection env client = Ok true ->
  _context (this (final (connect env w))) = Some context' ->
  (forall key,
      key <> XRAY_URL_KEY -> key <> XRAY_USERNAME_KEY ->
      globalState context' !! key = globalState context !! key)
  /\ (forall service account,
         (service, account)
         <> (SERVICE_ID,
             createAccountId (or_empty (showInputBox env (url_box (this w))))
                             (or_empty (showInputBox env (username_box (this w))))) ->
         keychain (final (connect env w)) !! (service, account)
         = keychain w !! (service, account)).
Proof.
  intros Hc Hpop Hclient Hcheck Hc'.
  destruct (connect_accepted_final w context client Hc Hpop Hclient Hcheck)
    as (_ & _ & _ & _ & Hfinal).
  rewrite Hfinal in Hc' |- *. cbn [this set_context _context keychain] in Hc' |- *.
  injection Hc' as <-. cbn [globalState]. split.
  - intros key Hurl Huser. rewrite !lookup_insert_ne by congruence. reflexivity.
  - intros service account Hne. rewrite lookup_insert_ne by congruence. reflexivity.
Qed.

(** X6: before [activate] has installed a context, [connect] throws a
    TypeError at its first read of the durable state, and so does
    [getComponents] when the credentials are not set; neither shows an
    input box, contacts a server or changes anything. *)
Theorem calls_before_activate_throw
        (componentDetails : list ComponentDetails) (w : World) :
  _context (this w) = None ->
  areCredentialsSet (this w) = false ->
  connect env w = Run (Throw (TypeError_undefined "globalState")) w []
  /\ getComponents env componentDetails w
     = Run (Throw (TypeError_undefined "globalState")) w [].
Proof.
  intros Hc Hunset.
  pose proof (populateCredentials_not_activated env true w Hc) as Htrue.
  pose proof (populateCredentials_not_activated env false w Hc) as Hfalse.
  split.
  - unfold connect. apply bind_throw. exact Htrue.
  - unfold getComponents.
    eapply bind_ok; [reflexivity| |reflexivity].
    rewrite Hunset. cbn [negb].
    apply bind_throw. apply bind_throw. exact Hfalse.
Qed.

(** X7: [getGoCenterModules] neither reads nor changes the object or
    the stores, also before [activate]: when the proxy settings resolve
    its only event is the metadata request on the GoCenter client, whose
    answer it passes on; when they do not, it throws that error and
    sends nothing. *)
Theorem getGoCenterModules_only_requests
        (componentDetails : list ComponentDetails) (w : World) :
  match createGoCenterClient env (this w) with
  | Ok client =>
      getGoCenterModules env componentDetails w
      = Run match getMetadataForModules env client
                    {| component_details := componentDetails |} with
            | Ok moduleResponse => Ok (components_metadata moduleResponse)
            | Throw e => Throw e
            end
            w
            [GetMetadataForModules client {| component_details := componentDetails |}]
  | Throw e => getGoCenterModules env componentDetails w = Run (Throw e) w []
  end.
Proof.
  unfold getGoCenterModules.
  destruct (createGoCenterClient env (this w)) as [client|e] eqn:Hclient.
  - eapply bind_ok; [reflexivity| |reflexivity].
    eapply bind_ok; [unfold lift; rewrite Hclient; reflexivity| |reflexivity].
    eapply bind_ok; [reflexivity| |reflexivity].
    destruct (getMetadataForModules env client _) as [moduleResponse|e] eqn:Hm.
    + eapply bind_ok; [unfold lift; rewrite ?Hm; reflexivity|reflexivity|reflexivity].
    + apply bind_throw. unfold lift. rewrite ?Hm. reflexivity.
  - eapply bind_ok; [reflexivity| |reflexivity].
    apply bind_throw. unfold lift. rewrite Hclient. reflexivity.
Qed.

(** X8: when the credentials are set, [getComponents] does not
    populate: it reads no store, shows no input box and changes nothing;
    its only event is the summary request on a client that carries the
    object's url, username and password, and it passes the answer on. *)
Theorem getComponents_with_credentials
        (componentDetails : list ComponentDetails) (w : World) (client : XrayClient) :
  areCredentialsSet (this w) = true ->
  createXrayClient env (this w) = Ok client ->
  IClientConfig.serverUrl (xray_config client) = Some (_url (this w))
  /\ IClientConfig.username (xray_config client) = Some (_username (this w))
  /\ IClientConfig.password (xray_config client) = Some (_password (this w))
  /\ getComponents env componentDetails w
     = Run match summary_component env client {| component_details := componentDetails |} with
           | Ok summaryResponse => Ok (artifacts summaryResponse)
           | Throw e => Throw e
           end
           w
           [SummaryComponent client {| component_details := componentDetails |}].
Proof.
  intros Hset Hclient. split; [|split; [|split]].
  1-3: rewrite createXrayClient_eq in Hclient;
       destruct (getProxyConfig env); [injection Hclient as <-; reflexivity|discriminate].
  unfold getComponents.
  eapply bind_ok; [reflexivity| |reflexivity].
  rewrite Hset. cbn [negb].
  eapply bind_ok; [reflexivity| |reflexivity].
  eapply bind_ok; [reflexivity| |reflexivity].
  eapply bind_ok; [unfold lift; rewrite Hclient; reflexivity| |reflexivity].
  eapply bind_ok; [reflexivity| |reflexivity].
  destruct (summary_component env client _) as [summaryResponse|e] eqn:Hsum.
  - eapply bind_ok; [unfold lift; rewrite ?Hsum; reflexivity|reflexivity|reflexivity].
  - apply bind_throw. unfold lift. rewrite ?Hsum. reflexivity.
Qed.


End Behaviour.

(** ** What every method keeps *)
Section Preservation.

Context {ComponentDetails IArtifact IComponentMetadata : Type}.
Variable Q : ConnectionManager -> Prop.
Hypothesis Q_context : forall context cm, Q cm -> Q (set_context context cm).
Hypothesis Q_credentials :
  forall url username password cm,
    url <> "" -> username <> "" -> password <> "" ->
    Q cm -> Q (set_credentials url username password cm).

Definition preserves {A} (m : @M ComponentDetails A) : Prop :=
  forall w, Q (this w) -> Q (this (final (m w))).

Lemma preserves_bind {A B} (m : @M ComponentDetails A) (k : A -> @M ComponentDetails B) :
  preserves m -> (forall a, preserves (k a)) -> preserves (bind m k).
Proof.
  intros Hm Hk w Hw. rewrite final_bind.
  destruct (result (m w)) as [a|]; [apply Hk|]; apply Hm, Hw.
Qed.

Lemma preserves_same {A} (m : @M ComponentDetails A) :
  (forall w, final (m w) = w) -> preserves m.
Proof. intros H w Hw. rewrite H. exact Hw. Qed.

Lemma preserves_globalState_update (key value : string) :
  preserves (@globalState_update ComponentDetails key value).
Proof.
  intros w Hw. unfold globalState_update.
  rewrite final_bind. cbn [get_this result final].
  destruct (_context (this w)) as [context|]; [|exact Hw].
  rewrite final_bind. cbn [emit put_this result final this].
  apply Q_context, Hw.
Qed.

Variable env : @Env ComponentDetails IArtifact IComponentMetadata.

Lemma preserves_populateCredentials (prompt : bool) :
  preserves (populateCredentials env prompt).
Proof.
  intros w Hw. pose proof (populateCredentials_final env prompt w) as F.
  destruct (result (populateCredentials env prompt w)) as [[|]|]; try (rewrite F; exact Hw).
  destruct F as (url & username & password & _ & _ & _ & Hu & Hn & Hp & ->).
  cbn [this]. apply Q_credentials; assumption.
Qed.

Lemma preserves_connect : preserves (connect env).
Proof.
  unfold connect.
  apply preserves_bind; [apply preserves_populateCredentials|intros populated].
  destruct (negb populated); [apply preserves_same; reflexivity|].
  unfold window_withProgress, connect_task.
  apply preserves_bind; [apply preserves_same; reflexivity|intros _].
  apply preserves_bind; [apply preserves_same; reflexivity|intros cm].
  apply preserves_bind; [apply preserves_same; reflexivity|intros xrayClient].
  apply preserves_bind; [apply preserves_same; reflexivity|intros _].
  apply preserves_bind; [apply preserves_same; reflexivity|intros connected].
  destruct (negb connected); [apply preserves_same; reflexivity|].
  apply preserves_bind.
  { intros w Hw. unfold storeUrl. rewrite final_bind. cbn [get_this result final].
    apply preserves_globalState_update, Hw. }
  intros _. apply preserves_bind.
  { intros w Hw. unfold storeUsername. rewrite final_bind. cbn [get_this result final].
    apply preserves_globalState_update, Hw. }
  intros _. apply preserves_bind; [|intros _; apply preserves_same; reflexivity].
  intros w Hw. exact Hw.
Qed.

Lemma preserves_activate (context : ExtensionContext) : preserves (activate env context).
Proof.
  intros w Hw. rewrite activate_eq. cbn [final].
  apply (preserves_populateCredentials false
           {| this := set_context context (this w); keychain := keychain w |}).
  apply Q_context, Hw.
Qed.

Lemma preserves_getComponents (componentDetails : list ComponentDetails) :
  preserves (getComponents env componentDetails).
Proof.
  unfold getComponents.
  apply preserves_bind; [apply preserves_same; reflexivity|intros cm].
  apply preserves_bind.
  { destruct (negb (areCredentialsSet cm)); [|apply preserves_same; reflexivity].
    apply preserves_bind; [apply preserves_populateCredentials|intros _].
    apply preserves_same; reflexivity. }
  intros _.
  apply preserves_bind; [apply preserves_same; reflexivity|intros cm'].
  apply preserves_bind; [apply preserves_same; reflexivity|intros xrayClient].
  apply preserves_bind; [apply preserves_same; reflexivity|intros _].
  apply preserves_bind; [apply preserves_same; reflexivity|intros summaryResponse].
  apply preserves_same; reflexivity.
Qed.

End Preservation.

Section Invariants.

Context {ComponentDetails IArtifact IComponentMetadata : Type}.
Variable env : @Env ComponentDetails IArtifact IComponentMetadata.

Lemma final_bind_same {A B} (m : @M ComponentDetails A) (k : A -> @M ComponentDetails B) :
  (forall w, final (m w) = w) -> (forall a w, final (k a w) = w) ->
  forall w, final (bind m k w) = w.
Proof.
  intros Hm Hk w. rewrite final_bind, Hm. destruct (result (m w)); [apply Hk|reflexivity].
Qed.

Lemma getGoCenterModules_final (componentDetails : list ComponentDetails) (w : World) :
  final (getGoCenterModules env componentDetails w) = w.
Proof.
  unfold getGoCenterModules.
  repeat (apply final_bind_same; [reflexivity|intros ?]). reflexivity.
Qed.

(** X10: on every object reachable through the public methods the
    credentials are never partial: they are not set exactly when url,
    username and password are all empty. *)
Theorem reachable_credentials_all_or_none (w : World) :
  @reachable ComponentDetails IArtifact IComponentMetadata w ->
  areCredentialsSet (this w) = false
  <-> _url (this w) = "" /\ _username (this w) = "" /\ _password (this w) = "".
Proof.
  intros Hreach. split.
  - intros Hunset. destruct (reachable_consistent w Hreach) as [H|H]; [exact H|congruence].
  - intros (Hurl & _ & _). unfold areCredentialsSet. rewrite Hurl. reflexivity.
Qed.

(** X11: no method clears the credentials: once they are set they are
    still set after [activate], [connect], [getComponents] and
    [getGoCenterModules], whatever these calls answer. *)
Theorem credentials_stay_set
        (context : ExtensionContext) (componentDetails : list ComponentDetails) (w : World) :
  areCredentialsSet (this w) = true ->
  areCredentialsSet (this (final (activate env context w))) = true
  /\ areCredentialsSet (this (final (connect env w))) = true
  /\ areCredentialsSet (this (final (getComponents env componentDetails w))) = true
  /\ areCredentialsSet (this (final (getGoCenterModules env componentDetails w))) = true.
Proof.
  intros Hset.
  assert (Hc : forall context cm,
             areCredentialsSet cm = true -> areCredentialsSet (set_context context cm) = true)
    by (intros ? ? H; exact H).
  assert (Hp : forall url username password cm,
             url <> "" -> username <> "" -> password <> "" ->
             areCredentialsSet cm = true ->
             areCredentialsSet (set_credentials url username password cm) = true).
  { intros url username password cm Hu Hn Hp _.
    apply truthy_true in Hu, Hn, Hp.
    unfold areCredentialsSet; cbn. rewrite Hu, Hn, Hp. reflexivity. }
  split; [|split; [|split]].
  - apply (preserves_activate (fun cm => areCredentialsSet cm = true)); assumption.
  - apply (preserves_connect (fun cm => areCredentialsSet cm = true)); assumption.
  - apply (preserves_getComponents (fun cm => areCredentialsSet cm = true)); assumption.
  - rewrite getGoCenterModules_final. exact Hset.
Qed.

End Invariants.

Section Clients.

Context {ComponentDetails IArtifact IComponentMetadata : Type}.
Variable env : @Env ComponentDetails IArtifact IComponentMetadata.

Lemma built_headers_names (p : proxy) (name : string) :
  is_Some (built_headers env p !! name) ->
  name = "User-Agent" \/ name = "Proxy-Authorization".
Proof.
  unfold built_headers.
  assert (Hagent : is_Some ((<["User-Agent" := USER_AGENT env]> ∅ : gmap string string) !! name)
                   -> name = "User-Agent").
  { intros [v Hv]. apply lookup_insert_Some in Hv as [[H _]|[_ H]]; [auto|].
    rewrite lookup_empty in H. discriminate. }
  destruct (proxy_truthy (Some p)); [|auto].
  destruct (configuration env !! "http.proxyAuthorization") as [v|]; [|auto].
  destruct (truthy v); [|auto].
  intros [v' Hv]. apply lookup_insert_Some in Hv as [[H _]|[_ H]]; [auto|].
  left. apply Hagent. eauto.
Qed.

(** X12: the configuration of the Xray client carries the object's
    url, username and password, the [User-Agent] header
    "jfrog-vscode-extension/" followed by the package version, and the
    resolved proxy; neither factory sets a header other than
    [User-Agent] and [Proxy-Authorization]. *)
Theorem client_configuration (cm : ConnectionManager) :
  (forall client,
      createXrayClient env cm = Ok client ->
      IClientConfig.serverUrl (xray_config client) = Some (_url cm)
      /\ IClientConfig.username (xray_config client) = Some (_username cm)
      /\ IClientConfig.password (xray_config client) = Some (_password cm)
      /\ header "User-Agent" (xray_config client)
         = Some ("jfrog-vscode-extension/" +:+ package_version env)
      /\ (exists p, getProxyConfig env = Ok p
                    /\ IClientConfig.proxy (xray_config client) = Some p)
      /\ (forall name, is_Some (header name (xray_config client)) ->
                       name = "User-Agent" \/ name = "Proxy-Authorization"))
  /\ (forall client name,
         createGoCenterClient env cm = Ok client ->
         is_Some (header name (gocenter_config client)) ->
         name = "User-Agent" \/ name = "Proxy-Authorization").
Proof.
  split.
  - intros client. rewrite createXrayClient_eq.
    destruct (getProxyConfig env) as [p|]; [|discriminate].
    intros [= <-]. cbn [xray_config IClientConfig.serverUrl IClientConfig.username
                        IClientConfig.password IClientConfig.proxy].
    repeat (split; [reflexivity|]).
    split; [apply built_headers_user_agent|]. split; [eauto|].
    intros name. apply built_headers_names.
  - intros client name. rewrite createGoCenterClient_eq.
    destruct (getProxyConfig env) as [p|]; [|discriminate].
    intros [= <-]. apply built_headers_names.
Qed.


End Clients.

(** ** Account ids *)

Lemma string_length_append (a b : string) :
  String.length (a +:+ b) = (String.length a + String.length b)%nat.
Proof.
  induction a as [|c a IH]; [reflexivity|].
  change (String.length (String c a +:+ b)) with (S (String.length (a +:+ b))).
  rewrite IH. reflexivity.
Qed.

Lemma string_append_assoc (a b c : string) : (a +:+ b) +:+ c = a +:+ (b +:+ c).
Proof.
  induction a as [|x a IH]; [reflexivity|].
  change (String x ((a +:+ b) +:+ c) = String x (a +:+ (b +:+ c))).
  rewrite IH. reflexivity.
Qed.

Lemma list_ascii_of_string_append (a b : string) :
  list_ascii_of_string (a +:+ b) = list_ascii_of_string a ++ list_ascii_of_string b.
Proof.
  induction a as [|c a IH]; [reflexivity|].
  change (c :: list_ascii_of_string (a +:+ b)
          = c :: (list_ascii_of_string a ++ list_ascii_of_string b)).
  rewrite IH. reflexivity.
Qed.

Definition hex_char (c : ascii) : Prop := In c (list_ascii_of_string "0123456789abcdef").

Lemma round_length (s : list Z) (kw : Z * Z) :
  length s = 8%nat -> length (SHA256.round s kw) = 8%nat.
Proof.
  intros H.
  do 9 (destruct s as [|? s]; try discriminate H); reflexivity.
Qed.

Lemma rounds_length (l : list (Z * Z)) (s : list Z) :
  length s = 8%nat -> length (fold_left SHA256.round l s) = 8%nat.
Proof.
  revert s. induction l as [|kw l IH]; intros s H; cbn; [exact H|].
  apply IH, round_length, H.
Qed.

Lemma compress_length (h block : list Z) :
  length h = 8%nat -> length (SHA256.compress h block) = 8%nat.
Proof.
  intros H. unfold SHA256.compress.
  rewrite List.length_map, List.length_combine, rounds_length by exact H.
  rewrite H. reflexivity.
Qed.

Lemma digest_length (msg : list Z) : length (SHA256.digest msg) = 8%nat.
Proof.
  unfold SHA256.digest.
  generalize (SHA256.blocks (length (SHA256.words_of_bytes (SHA256.pad msg)))
                            (SHA256.words_of_bytes (SHA256.pad msg))).
  assert (H : length SHA256.H0 = 8%nat) by reflexivity.
  generalize dependent SHA256.H0.
  intros h H l. revert h H. induction l as [|b l IH]; intros h H; cbn; [exact H|].
  apply IH, compress_length, H.
Qed.

Lemma hex_digit_char (d : Z) : 0 <= d < 16 -> hex_char (SHA256.hex_digit d).
Proof.
  intros H.
  assert (d = 0 \/ d = 1 \/ d = 2 \/ d = 3 \/ d = 4 \/ d = 5 \/ d = 6 \/ d = 7
          \/ d = 8 \/ d = 9 \/ d = 10 \/ d = 11 \/ d = 12 \/ d = 13 \/ d = 14 \/ d = 15)
    as Hd by lia.
  unfold hex_char.
  repeat (destruct Hd as [->|Hd]; [vm_compute; tauto|]).
  subst d. vm_compute. tauto.
Qed.

Lemma hex_nibbles_spec (n : nat) (x : Z) :
  String.length (SHA256.hex_nibbles n x) = n
  /\ Forall hex_char (list_ascii_of_string (SHA256.hex_nibbles n x)).
Proof.
  induction n as [|n [IHl IHc]]; [split; [reflexivity|constructor]|].
  cbn [SHA256.hex_nibbles String.length list_ascii_of_string]. split; [rewrite IHl; reflexivity|].
  constructor; [|exact IHc].
  apply hex_digit_char.
  change 15 with (Z.ones 4). rewrite Z.land_ones by lia.
  apply Z.mod_pos_bound. lia.
Qed.

Lemma hex_spec (ws : list Z) :
  String.length (SHA256.hex ws) = (8 * length ws)%nat
  /\ Forall hex_char (list_ascii_of_string (SHA256.hex ws)).
Proof.
  induction ws as [|w ws [IHl IHc]]; [split; [reflexivity|constructor]|].
  destruct (hex_nibbles_spec 8 w) as [Hl Hc].
  change (SHA256.hex (w :: ws)) with (SHA256.hex_nibbles 8 w +:+ SHA256.hex ws).
  rewrite string_length_append, list_ascii_of_string_append, Hl, IHl.
  split; [cbn [length]; lia|]. apply Forall_app. split; assumption.
Qed.

(** X14: whatever the url and the username, the account id under which
    the password is kept is a string of exactly 64 characters, each a
    lower-case hexadecimal digit. *)
Theorem account_id_is_64_hex_digits (url username : string) :
  String.length (createAccountId url username) = 64%nat
  /\ Forall hex_char (list_ascii_of_string (createAccountId url username)).
Proof.
  unfold createAccountId, SHA256.hexdigest.
  destruct (hex_spec (SHA256.digest (SHA256.bytes_of_string (url +:+ username)))) as [Hl Hc].
  rewrite digest_length in Hl. split; [exact Hl|exact Hc].
Qed.

Section AccountIds.

Context {ComponentDetails IArtifact IComponentMetadata : Type}.
Variable env : @Env ComponentDetails IArtifact IComponentMetadata.

(** X15: the account id depends on the url and the username only
    through their concatenation: a password stored for the url [a ++ b]
    and the username [c] is the one the non-interactive lookup finds
    for the url [a] and the username [b ++ c]. *)
Theorem account_id_of_concatenation (a b c : string) (w : World) :
  _url (this w) = a +:+ b ->
  _username (this w) = c ->
  createAccountId (a +:+ b) c = createAccountId a (b +:+ c)
  /\ result (retrievePassword env false a (b +:+ c)
                              (final (@storePassword ComponentDetails w)))
     = Ok (_password (this w)).
Proof.
  intros Hurl Huser.
  assert (Hid : createAccountId (a +:+ b) c = createAccountId a (b +:+ c)).
  { unfold createAccountId. rewrite string_append_assoc. reflexivity. }
  split; [exact Hid|].
  rewrite storePassword_eq, retrievePassword_eq. cbn [final result keychain].
  rewrite Hurl, Huser, Hid, lookup_insert_eq. reflexivity.
Qed.

End AccountIds.

Section MoreBehaviour.

Context {ComponentDetails IArtifact IComponentMetadata : Type}.
Variable env : @Env ComponentDetails IArtifact IComponentMetadata.


(** X17: [getComponents] loads stored credentials when none are set:
    on an activated object without credentials whose durable state holds
    a non-empty url and username and whose key store holds a non-empty
    password under their account id, the call assigns the three to the
    object, shows no input box, and sends the summary request on a
    client that carries them. *)
Theorem getComponents_loads_stored_credentials
        (componentDetails : list ComponentDetails) (w : World) (context : ExtensionContext)
        (url username password : string) (client : XrayClient) :
  _context (this w) = Some context ->
  areCredentialsSet (this w) = false ->
  globalState context !! XRAY_URL_KEY = Some url -> url <> "" ->
  globalState context !! XRAY_USERNAME_KEY = Some username -> username <> "" ->
  keychain w !! (SERVICE_ID, createAccountId url username) = Some password ->
  password <> "" ->
  createXrayClient env (set_credentials url username password (this w)) = Ok client ->
  IClientConfig.serverUrl (xray_config client) = Some url
  /\ IClientConfig.username (xray_config client) = Some username
  /\ IClientConfig.password (xray_config client) = Some password
  /\ getComponents env componentDetails w
     = Run match summary_component env client {| component_details := componentDetails |} with
           | Ok summaryResponse => Ok (artifacts summaryResponse)
           | Throw e => Throw e
           end
           {| this := set_credentials url username password (this w);
              keychain := keychain w |}
           [GlobalStateGet XRAY_URL_KEY;
            GlobalStateGet XRAY_USERNAME_KEY;
            KeytarGetPassword SERVICE_ID (createAccountId url username);
            SummaryComponent client {| component_details := componentDetails |}].
Proof.
  intros Hc Hunset Hurl Hu Huser Hn Hpass Hp Hclient.
  split; [|split; [|split]].
  1-3: rewrite createXrayClient_eq in Hclient;
       destruct (getProxyConfig env); [injection Hclient as <-; reflexivity|discriminate].
  assert (Hpop : populateCredentials env false w
                 = Run (Ok true)
                       {| this := set_credentials url username password (this w);
                          keychain := keychain w |}
                       [GlobalStateGet XRAY_URL_KEY;
                        GlobalStateGet XRAY_USERNAME_KEY;
                        KeytarGetPassword SERVICE_ID (createAccountId url username)]).
  { rewrite (populateCredentials_activated env false w context Hc). cbn zeta.
    rewrite Hurl, Huser. change (or_empty (Some url)) with url.
    change (or_empty (Some username)) with username.
    rewrite Hpass. change (or_empty (Some password)) with password.
    apply truthy_true in Hu, Hn, Hp. rewrite Hu, Hn, Hp. reflexivity. }
  unfold getComponents.
  eapply bind_ok; [reflexivity| |reflexivity].
  rewrite Hunset. cbn [negb].
  eapply bind_ok; [eapply bind_ok; [exact Hpop|reflexivity|reflexivity]| |reflexivity].
  eapply bind_ok; [reflexivity| |reflexivity].
  eapply bind_ok; [unfold lift; cbn [this]; rewrite Hclient; reflexivity| |reflexivity].
  eapply bind_ok; [reflexivity| |reflexivity].
  destruct (summary_component env client _) as [summaryResponse|e] eqn:Hsum.
  - eapply bind_ok; [unfold lift; rewrite ?Hsum; reflexivity|reflexivity|reflexivity].
  - apply bind_throw. unfold lift. rewrite ?Hsum. reflexivity.
Qed.

(** X18: the two public header methods on any configuration.
    [addUserAgentHeader] throws a TypeError when the configuration has
    no headers object; otherwise it sets [User-Agent], leaves every other
    header and field as it was, and applying it again changes nothing.
    [addProxyAuthHeader] returns the configuration untouched, headers
    object or not, when its proxy is undefined or [false] or the setting
    [http.proxyAuthorization] is undefined or empty. *)
Theorem header_methods (clientConfig : IClientConfig.t) :
  (IClientConfig.headers clientConfig = None ->
   addUserAgentHeader env clientConfig = Throw (TypeError_undefined "User-Agent"))
  /\ (forall h,
         IClientConfig.headers clientConfig = Some h ->
         exists clientConfig',
           addUserAgentHeader env clientConfig = Ok clientConfig'
           /\ header "User-Agent" clientConfig' = Some (USER_AGENT env)
           /\ (forall name, name <> "User-Agent" ->
                            header name clientConfig' = header name clientConfig)
           /\ IClientConfig.serverUrl clientConfig' = IClientConfig.serverUrl clientConfig
           /\ IClientConfig.username clientConfig' = IClientConfig.username clientConfig
           /\ IClientConfig.password clientConfig' = IClientConfig.password clientConfig
           /\ IClientConfig.proxy clientConfig' = IClientConfig.proxy clientConfig
           /\ addUserAgentHeader env clientConfig' = Ok clientConfig')
  /\ (proxy_truthy (IClientConfig.proxy clientConfig) = false
      \/ defined_truthy (configuration env !! "http.proxyAuthorization") = false ->
      addProxyAuthHeader env clientConfig = Ok clientConfig).
Proof.
  split; [|split].
  - intros H. unfold addUserAgentHeader, set_header. rewrite H. reflexivity.
  - intros h H. unfold addUserAgentHeader, set_header. rewrite H.
    eexists. split; [reflexivity|].
    unfold header. cbn [IClientConfig.set_headers IClientConfig.headers IClientConfig.serverUrl
                        IClientConfig.username IClientConfig.password IClientConfig.proxy].
    rewrite H. split; [apply lookup_insert_eq|].
    split; [intros name Hname; apply lookup_insert_ne; congruence|].
    repeat (split; [reflexivity|]).
    rewrite insert_insert_eq. reflexivity.
  - intros H. unfold addProxyAuthHeader.
    destruct (proxy_truthy (IClientConfig.proxy clientConfig)); [|reflexivity].
    destruct H as [H|H]; [discriminate|].
    destruct (configuration env !! "http.proxyAuthorization") as [v|]; [|reflexivity].
    cbn [defined_truthy] in H. rewrite H. reflexivity.
Qed.

End MoreBehaviour.

(** * Sample runs of the further behaviour *)
Module Scenario.


(** The world an accepted [connect] leaves. *)
Definition connected : World := final (connect Sample.accepting Sample.fresh).

(** An object that holds a url ending in "b" and the username "ob". *)
Definition shifted : World :=
  {| this := set_credentials "https://x.exampleb" "ob" "secret"
                             (set_context Sample.empty_context new_ConnectionManager);
     keychain := ∅ |}.

End Scenario.

(** X1 on a run. *)
Lemma connect_stops_when_populate_fails_sample :
  connect Sample.silent Sample.fresh
  = Run (Ok false) Sample.fresh (trace (populateCredentials Sample.silent true Sample.fresh))
  /\ Forall (fun e => is_write e = false /\ contacts_server e = false /\ is_progress e = false)
            (trace (connect Sample.silent Sample.fresh)).
Proof.
  apply (connect_stops_when_populate_fails Sample.silent Sample.fresh).
  vm_compute. reflexivity.
Defined.

(** X2 on a run. *)
Lemma populate_stops_at_first_empty_stage_sample :
  trace (populateCredentials Sample.silent false Sample.url_only)
  = [GlobalStateGet XRAY_URL_KEY; GlobalStateGet XRAY_USERNAME_KEY].
Proof.
  rewrite (populate_stops_at_first_empty_stage
             Sample.silent false Sample.url_only
             {| globalState := {[ XRAY_URL_KEY := "https://x.example" ]} |}
             "https://x.example" "" eq_refl eq_refl eq_refl).
  reflexivity.
Defined.

(** X3 on a run. *)
Lemma prompted_populate_ignores_stores_sample :
  result (populateCredentials Sample.refusing true Sample.fresh)
  = result (populateCredentials Sample.refusing true Sample.stored)
  /\ _password (this (final (populateCredentials Sample.refusing true Sample.fresh)))
     = _password (this (final (populateCredentials Sample.refusing true Sample.stored))).
Proof.
  destruct (prompted_populate_ignores_stores
              Sample.refusing Sample.fresh Sample.stored
              Sample.empty_context Sample.stored_context
              eq_refl eq_refl eq_refl eq_refl eq_refl)
    as (Hresult & _ & _ & _ & Hpassword).
  split; [exact Hresult|exact Hpassword].
Defined.

(** X4 on a run. *)
Lemma stored_credentials_come_back_sample :
  exists context',
    _context (this Scenario.connected) = Some context'
    /\ areCredentialsSet
         (this (final (activate Sample.silent context'
                                {| this := new_ConnectionManager;
                                   keychain := keychain Scenario.connected |})))
       = true.
Proof.
  eexists. split; [vm_compute; reflexivity|].
  eapply (stored_credentials_come_back
            Sample.accepting Sample.fresh Sample.empty_context _ Sample.silent).
  - reflexivity.
  - vm_compute. reflexivity.
  - vm_compute. reflexivity.
  - reflexivity.
  - vm_compute. reflexivity.
Defined.

(** X5 on a run. *)
Lemma connect_touches_only_its_entries_sample :
  keychain (final (connect Sample.accepting Sample.stored))
    !! (SERVICE_ID, createAccountId "https://old.example" "alice")
  = Some "hunter2".
Proof.
  edestruct (connect_touches_only_its_entries
               Sample.accepting Sample.stored Sample.stored_context) as [_ Hvault].
  - reflexivity.
  - vm_compute. reflexivity.
  - vm_compute. reflexivity.
  - reflexivity.
  - vm_compute. reflexivity.
  - rewrite (Hvault SERVICE_ID (createAccountId "https://old.example" "alice")).
    + vm_compute. reflexivity.
    + vm_compute. discriminate.
Defined.

(** X6 on a run. *)
Lemma calls_before_activate_throw_sample :
  connect Sample.refusing Sample.created
  = Run (Throw (TypeError_undefined "globalState")) Sample.created []
  /\ getComponents Sample.refusing ["npm://lodash:4.17.0"] Sample.created
     = Run (Throw (TypeError_undefined "globalState")) Sample.created [].
Proof.
  apply (calls_before_activate_throw Sample.refusing); reflexivity.
Defined.

(** X8 on a run. *)
Lemma getComponents_with_credentials_sample :
  exists client,
    createXrayClient Sample.accepting (this Scenario.connected) = Ok client
    /\ IClientConfig.password (xray_config client) = Some "secret"
    /\ trace (getComponents Sample.accepting ["npm://lodash:4.17.0"] Scenario.connected)
       = [SummaryComponent client {| component_details := ["npm://lodash:4.17.0"] |}].
Proof.
  eexists. split; [vm_compute; reflexivity|].
  edestruct (getComponents_with_credentials
               Sample.accepting ["npm://lodash:4.17.0"] Scenario.connected)
    as (_ & _ & Hpassword & Hrun).
  - vm_compute. reflexivity.
  - vm_compute. reflexivity.
  - split; [exact Hpassword|]. rewrite Hrun. reflexivity.
Defined.

(** X10 on a run. *)
Lemma reachable_credentials_all_or_none_sample :
  areCredentialsSet (this (final (activate Sample.silent Sample.empty_context Sample.created)))
  = false
  <-> _url (this (final (activate Sample.silent Sample.empty_context Sample.created))) = ""
      /\ _username (this (final (activate Sample.silent Sample.empty_context Sample.created)))
         = ""
      /\ _password (this (final (activate Sample.silent Sample.empty_context Sample.created)))
         = "".
Proof.
  apply (@reachable_credentials_all_or_none string string string).
  apply reach_activate, reach_new.
Defined.

(** X11 on a run. *)
Lemma credentials_stay_set_sample :
  areCredentialsSet (this (final (connect Sample.silent Scenario.connected))) = true
  /\ areCredentialsSet
       (this (final (activate Sample.silent Sample.empty_context Scenario.connected)))
     = true.
Proof.
  destruct (credentials_stay_set
              Sample.silent Sample.empty_context ["npm://lodash:4.17.0"] Scenario.connected)
    as (Hactivate & Hconnect & _).
  - vm_compute. reflexivity.
  - split; [exact Hconnect|exact Hactivate].
Defined.

(** X12 on a run. *)
Lemma client_configuration_sample :
  exists client,
    createXrayClient Sample.proxied (this Scenario.connected) = Ok client
    /\ IClientConfig.serverUrl (xray_config client) = Some "https://x.example"
    /\ header "User-Agent" (xray_config client) = Some "jfrog-vscode-extension/1.0.0".
Proof.
  eexists. split; [vm_compute; reflexivity|].
  destruct (proj1 (client_configuration Sample.proxied (this Scenario.connected)) _ eq_refl)
    as (Hurl & _ & _ & Hagent & _).
  split; [exact Hurl|exact Hagent].
Defined.


(** X15 on a run. *)
Lemma account_id_of_concatenation_sample :
  createAccountId "https://x.exampleb" "ob" = createAccountId "https://x.example" "bob"
  /\ result (retrievePassword Sample.silent false "https://x.example" "bob"
                              (final (@storePassword string Scenario.shifted)))
     = Ok "secret".
Proof.
  apply (account_id_of_concatenation Sample.silent "https://x.example" "b" "ob"
                                     Scenario.shifted); reflexivity.
Defined.


(** X17 on a run. *)
Lemma getComponents_loads_stored_credentials_sample :
  exists client,
    IClientConfig.serverUrl (xray_config client) = Some "https://old.example"
    /\ IClientConfig.username (xray_config client) = Some "alice"
    /\ IClientConfig.password (xray_config client) = Some "hunter2"
    /\ trace (getComponents Sample.silent ["npm://lodash:4.17.0"] Sample.stored)
       = [GlobalStateGet XRAY_URL_KEY;
          GlobalStateGet XRAY_USERNAME_KEY;
          KeytarGetPassword SERVICE_ID (createAccountId "https://old.example" "alice");
          SummaryComponent client {| component_details := ["npm://lodash:4.17.0"] |}].
Proof.
  edestruct (getComponents_loads_stored_credentials
               Sample.silent ["npm://lodash:4.17.0"] Sample.stored Sample.stored_context
               "https://old.example" "alice" "hunter2")
    as (Hurl & Huser & Hpass & Hrun).
  - reflexivity.
  - reflexivity.
  - vm_compute. reflexivity.
  - discriminate.
  - vm_compute. reflexivity.
  - discriminate.
  - vm_compute. reflexivity.
  - discriminate.
  - vm_compute. reflexivity.
  - eexists. split; [exact Hurl|]. split; [exact Huser|]. split; [exact Hpass|].
    rewrite Hrun. reflexivity.
Defined.

(** X18 on a run. *)
Lemma header_methods_sample :
  addUserAgentHeader Sample.proxied (IClientConfig.make None None None None None)
  = Throw (TypeError_undefined "User-Agent")
  /\ addProxyAuthHeader Sample.proxied (IClientConfig.make None None None None None)
     = Ok (IClientConfig.make None None None None None).
Proof.
  destruct (header_methods Sample.proxied (IClientConfig.make None None None None None))
    as (Hagent & _ & Hproxy).
  split; [apply Hagent; reflexivity|apply Hproxy; left; reflexivity].
Defined.
